(** * The DMA example host program (RTL/examples/dma/sw/main.cpp)

    A shallow embedding of [main]: the test driver that allocates two
    shared buffers, programs the accelerator's memory-mapped registers,
    polls the completion register, compares the buffers and frees them.

    The accelerator wrapper (AFU.h), the application settings (config.h)
    and the vendor SDK are not part of main.cpp.  The wrapper and the host
    environment are an interface ([Host]) over an arbitrary world state;
    the settings are a record ([config]).  A run of [main] yields the
    trace of its interactions with that world, its outcome and the final
    world.

    The destructor of [afu], which runs when the [try] block is left, is
    part of the absent wrapper and leaves no event in the trace. *)

From Stdlib Require Import ZArith NArith List String Bool Lia QArith.
From Stdlib Require Import Numbers.HexadecimalString Numbers.HexadecimalN.
From Stdlib Require Import Floats.SpecFloat.
Import ListNotations.
Open Scope Z_scope.

(** ** Values of the vendor SDK and of the C++ library *)

(** The enumeration [fpga_result] of <opae/types_enum.h>. *)
Inductive fpga_result : Type :=
| FPGA_OK
| FPGA_INVALID_PARAM
| FPGA_BUSY
| FPGA_EXCEPTION
| FPGA_NOT_FOUND
| FPGA_NO_MEMORY
| FPGA_NOT_SUPPORTED
| FPGA_NO_DRIVER
| FPGA_NO_DAEMON
| FPGA_NO_ACCESS
| FPGA_RECONF_ERROR.

Definition fpga_result_eqb (a b : fpga_result) : bool :=
  match a, b with
  | FPGA_OK, FPGA_OK | FPGA_INVALID_PARAM, FPGA_INVALID_PARAM
  | FPGA_BUSY, FPGA_BUSY | FPGA_EXCEPTION, FPGA_EXCEPTION
  | FPGA_NOT_FOUND, FPGA_NOT_FOUND | FPGA_NO_MEMORY, FPGA_NO_MEMORY
  | FPGA_NOT_SUPPORTED, FPGA_NOT_SUPPORTED | FPGA_NO_DRIVER, FPGA_NO_DRIVER
  | FPGA_NO_DAEMON, FPGA_NO_DAEMON | FPGA_NO_ACCESS, FPGA_NO_ACCESS
  | FPGA_RECONF_ERROR, FPGA_RECONF_ERROR => true
  | _, _ => false
  end.

(** What a call into the wrapper can throw.  The three first kinds are the
    ones [main] has a catch clause for; [ExOther] stands for an object of
    any other type, which no clause of [main] matches. *)
Inductive exn : Type :=
| ExFpgaResult (e : fpga_result)
| ExRuntimeError (what : string)
| ExNoDriver
| ExOther.

Definition EXIT_SUCCESS : Z := 0.
Definition EXIT_FAILURE : Z := 1.

(** [NUM_TESTS], defined at the top of main.cpp. *)
Definition NUM_TESTS : nat := 1.

(** The literal register offset read after the comparison. *)
Definition RESETS_OFFSET : Z := 0x0060.

(** ** Settings

    config.h, AFU.h and afu_json_info.h are absent: the names [main] takes
    from them are the fields of this record.  [DATA_AMOUNT] is an element
    count in the range of [unsigned] (the loop counters of [main] are
    [unsigned]); [dma_data_t] is an integer type, given by its size in
    bytes and its signedness. *)
Record config : Type := {
  AFU_ACCEL_UUID : string;
  DATA_AMOUNT : N;
  dma_bytes : Z;
  dma_signed : bool;
  CL_BYTES : Z;
  MMIO_RD_ADDR : Z;
  MMIO_WR_ADDR : Z;
  MMIO_SIZE : Z;
  MMIO_GO : Z;
  MMIO_DONE : Z;
  SLEEP_WHILE_WAITING : bool;
  SLEEP_MS : Z
}.

(** ** Observable actions *)

(** The calls [main] makes into the wrapper. *)
Inductive afu_call : Type :=
| AfuNew (uuid : string)
| AfuMalloc (n : N)
| AfuWrite (off v : Z)
| AfuRead (off : Z)
| AfuFree (p : Z).

(** One entry of a trace: a wrapper call with its result, a call that
    threw, an access to a shared buffer, a call of [rand], a sleep, or text
    inserted into [cout] or [cerr]. *)
Inductive event : Type :=
| EvNew (uuid : string)
| EvMalloc (n : N) (p : Z)
| EvWrite (off v : Z)
| EvRead (off v : Z)
| EvFree (p : Z)
| EvThrown (c : afu_call) (e : exn)
| EvRand (v : Z)
| EvStore (p : Z) (i : Z) (v : Z)
| EvLoad (p : Z) (i : Z) (v : Z)
| EvSleep (ms : Z)
| EvOut (s : string)
| EvErr (s : string).

(** ** The world [main] runs in

    [W] is the state of everything outside [main]: the wrapper, the
    accelerator, the shared memory, the generator behind [rand].  Every
    wrapper call may throw, and every operation may change the world (the
    accelerator writes the shared buffers on its own). *)
Record Host (W : Type) : Type := {
  afu_new : string -> W -> (exn + unit) * W;
  afu_malloc : N -> Z -> W -> (exn + Z) * W;
  afu_write : Z -> Z -> W -> (exn + unit) * W;
  afu_read : Z -> W -> (exn + Z) * W;
  afu_free : Z -> W -> (exn + unit) * W;
  c_rand : W -> Z * W;
  mem_store : Z -> Z -> Z -> W -> W;
  mem_load : Z -> Z -> W -> Z * W;
  sleep_for : Z -> W -> W;
  fpgaErrStr : fpga_result -> string
}.

Arguments afu_new {W} _ _ _.
Arguments afu_malloc {W} _ _ _ _.
Arguments afu_write {W} _ _ _ _.
Arguments afu_read {W} _ _ _.
Arguments afu_free {W} _ _ _.
Arguments c_rand {W} _ _.
Arguments mem_store {W} _ _ _ _ _.
Arguments mem_load {W} _ _ _ _.
Arguments sleep_for {W} _ _ _.
Arguments fpgaErrStr {W} _ _.

(** ** Text formatting *)

Definition endl : string := String (Ascii.ascii_of_nat 10) EmptyString.

(** [cout << hex << v]: lower-case hexadecimal digits, no prefix.  The
    [hex] manipulator of the first insertion stays in force for every
    later integer inserted into [cout]. *)
Definition to_hex (v : Z) : string :=
  NilZero.string_of_uint (N.to_hex_uint (Z.to_N v)).

(** A pointer printed as [(long) p]: the digits of its 64-bit pattern. *)
Definition hex_of_pointer (p : Z) : string := to_hex (p mod 2 ^ 64).

(** ** Arithmetic of the C++ types *)

Definition wrap_unsigned (v : Z) : Z := v mod 2 ^ 32.

(** [(dma_data_t) v] for an integer [v]. *)
Definition cast_dma (cfg : config) (v : Z) : Z :=
  let m := 2 ^ (8 * dma_bytes cfg) in
  if dma_signed cfg then (v + m / 2) mod m - m / 2 else v mod m.

(** *** Single precision

    [float] is IEEE 754 binary32: 24 bits of precision, infinities at
    exponent 128; conversions and division round to nearest, ties to
    even. *)
Definition prec32 : Z := 24.
Definition emax32 : Z := 128.

(** [(float) n] for an unsigned integer [n]. *)
Definition float_of_unsigned (n : Z) : spec_float :=
  binary_normalize prec32 emax32 n 0 false.

Definition float_div (x y : spec_float) : spec_float :=
  SFdiv prec32 emax32 x y.

(** The rational a float denotes; nothing for an infinity or a NaN. *)
Definition float_value (x : spec_float) : option Q :=
  match x with
  | S754_zero _ => Some 0%Q
  | S754_finite s m e =>
      let n := if s then Z.neg m else Z.pos m in
      Some (if 0 <=? e then inject_Z (n * 2 ^ e)
            else (n # Pos.pow 2 (Z.to_pos (- e)))%Q)
  | S754_infinity _ | S754_nan => None
  end.

(** [ceil x] as an integer; nothing for an infinity or a NaN. *)
Definition float_ceil (x : spec_float) : option Z :=
  match x with
  | S754_zero _ => Some 0
  | S754_finite s m e =>
      let n := if s then Z.neg m else Z.pos m in
      Some (if 0 <=? e then n * 2 ^ e else - ((- n) / 2 ^ (- e)))
  | S754_infinity _ | S754_nan => None
  end.

(** Conversion of an integral floating value to [unsigned]: defined only
    when the value is in range. *)
Definition unsigned_of_integral (z : Z) : option Z :=
  if (0 <=? z) && (z <? 2 ^ 32) then Some z else None.

(** [unsigned total_bytes = DATA_AMOUNT*sizeof(dma_data_t);] *)
Definition total_bytes (cfg : config) : Z :=
  wrap_unsigned (Z.of_N (DATA_AMOUNT cfg) * dma_bytes cfg).

(** [unsigned num_cls = ceil((float) total_bytes / (float) AFU::CL_BYTES);]
    [None] when the conversion back to [unsigned] has no defined result. *)
Definition num_cls (cfg : config) : option Z :=
  match float_ceil (float_div (float_of_unsigned (total_bytes cfg))
                              (float_of_unsigned (CL_BYTES cfg))) with
  | Some z => unsigned_of_integral z
  | None => None
  end.

(** ** Computations

    A computation runs from a world and yields the trace it produced, its
    result and the world it left.  It stops early when a call throws, when
    the polling loop has used up its budget of iterations ([Spinning]: the
    loop is still waiting), or when a conversion has no defined result. *)
Inductive halt : Type :=
| Raised (e : exn)
| Spinning
| Undefined.

Inductive res (A : Type) : Type :=
| Done (a : A)
| Halt (h : halt).

Arguments Done {A} a.
Arguments Halt {A} h.

Definition M (W A : Type) : Type := W -> list event * res A * W.

Definition ret {W A : Type} (a : A) : M W A := fun w => ([], Done a, w).

Definition bind {W A B : Type} (m : M W A) (k : A -> M W B) : M W B :=
  fun w =>
    match m w with
    | (t1, Done a, w1) =>
        match k a w1 with
        | (t2, r, w2) => (t1 ++ t2, r, w2)
        end
    | (t1, Halt h, w1) => (t1, Halt h, w1)
    end.

Declare Scope driver_scope.
Delimit Scope driver_scope with driver.
Notation "x <- m ;; k" := (bind m (fun x => k))
  (at level 61, m at next level, right associativity) : driver_scope.
Notation "m ;; k" := (bind m (fun _ => k))
  (at level 61, right associativity) : driver_scope.

Definition stop {W A : Type} (hl : halt) : M W A := fun w => ([], Halt hl, w).

(** The outcome of the whole program. *)
Inductive outcome : Type :=
| Exit (code : Z)
| Uncaught (e : exn)
| StillPolling
| UndefinedBehaviour.

Section Driver.

Context {W : Type}.
Variable cfg : config.
Variable host : Host W.

Local Open Scope driver_scope.

(** *** Primitive steps *)

(** A wrapper call: its event on success, [EvThrown] when it throws. *)
Definition call {A : Type} (c : afu_call) (ev : A -> event)
  (op : W -> (exn + A) * W) : M W A :=
  fun w =>
    match op w with
    | (inr a, w1) => ([ev a], Done a, w1)
    | (inl e, w1) => ([EvThrown c e], Halt (Raised e), w1)
    end.

(** [AFU afu(uuid)] *)
Definition new_afu (uuid : string) : M W unit :=
  call (AfuNew uuid) (fun _ => EvNew uuid) (afu_new host uuid).

(** [afu.malloc<dma_data_t>(n)] *)
Definition malloc (n : N) : M W Z :=
  call (AfuMalloc n) (EvMalloc n) (afu_malloc host n (dma_bytes cfg)).

(** [afu.write(off, v)] *)
Definition write (off v : Z) : M W unit :=
  call (AfuWrite off v) (fun _ => EvWrite off v) (afu_write host off v).

(** [afu.read(off)] *)
Definition read (off : Z) : M W Z :=
  call (AfuRead off) (EvRead off) (afu_read host off).

(** [afu.free(p)] *)
Definition free (p : Z) : M W unit :=
  call (AfuFree p) (fun _ => EvFree p) (afu_free host p).

(** [rand()] *)
Definition rand : M W Z :=
  fun w => match c_rand host w with (v, w1) => ([EvRand v], Done v, w1) end.

(** [p[i] = v] *)
Definition store (p i v : Z) : M W unit :=
  fun w => ([EvStore p i v], Done tt, mem_store host p i v w).

(** [p[i]] as an rvalue *)
Definition load (p i : Z) : M W Z :=
  fun w => match mem_load host p i w with
           | (v, w1) => ([EvLoad p i v], Done v, w1)
           end.

(** [std::this_thread::sleep_for(std::chrono::milliseconds(ms))] *)
Definition sleep (ms : Z) : M W unit :=
  fun w => ([EvSleep ms], Done tt, sleep_for host ms w).

(** [cout << s] *)
Definition cout (s : string) : M W unit := fun w => ([EvOut s], Done tt, w).

(** *** The statements of one test *)

(** The initialisation loop, with [n] iterations left from index [i]:
    [input[i] = (dma_data_t) rand(); output[i] = 0;] *)
Fixpoint fill_loop (n : nat) (i : Z) (input output : Z) : M W unit :=
  match n with
  | O => ret tt
  | S n' =>
      v <- rand ;;
      store input i (cast_dma cfg v) ;;
      store output i 0 ;;
      fill_loop n' (i + 1) input output
  end.

(** The polling loop, with a budget of [fuel] reads of the register:
    [while (afu.read(MMIO_DONE) == 0) { if (SLEEP_WHILE_WAITING) sleep }] *)
Fixpoint poll (fuel : nat) : M W unit :=
  match fuel with
  | O => stop Spinning
  | S fuel' =>
      v <- read (MMIO_DONE cfg) ;;
      if v =? 0 then
        (if SLEEP_WHILE_WAITING cfg then sleep (SLEEP_MS cfg) else ret tt) ;;
        poll fuel'
      else ret tt
  end.

(** The comparison loop, with [n] iterations left from index [i] and the
    counter at [errors]: [if (output[i] != input[i]) errors++;]
    The two volatile elements are loaded left to right; [errors] is an
    [unsigned] and wraps. *)
Fixpoint verify_loop (n : nat) (i : Z) (input output : Z) (errors : Z)
  : M W Z :=
  match n with
  | O => ret errors
  | S n' =>
      o <- load output i ;;
      x <- load input i ;;
      verify_loop n' (i + 1) input output
        (if o =? x then errors else wrap_unsigned (errors + 1))
  end.

Definition failure_line (errors : Z) : string :=
  "FAILURE: DMA Test Failed With " ++ to_hex errors ++ " errors!!!!" ++ endl.

Definition success_line : string := "DMA Test Successful!!!" ++ endl.

Definition test_line (test : Z) : string :=
  "Test " ++ to_hex test ++ "..." ++ endl.

(** The body of the [for (unsigned test ...)] loop.  In
    [cout << "# of resets: " << afu.read(0x0060) << endl] the operands of
    [<<] are evaluated left to right: the label is inserted before the
    register is read. *)
Definition test_body (fuel : nat) (test : Z) : M W unit :=
  input <- malloc (DATA_AMOUNT cfg) ;;
  output <- malloc (DATA_AMOUNT cfg) ;;
  cout (hex_of_pointer input ++ endl) ;;
  cout (hex_of_pointer output ++ endl) ;;
  cout (test_line test) ;;
  fill_loop (N.to_nat (DATA_AMOUNT cfg)) 0 input output ;;
  write (MMIO_RD_ADDR cfg) input ;;
  write (MMIO_WR_ADDR cfg) output ;;
  cls <- match num_cls cfg with
         | Some c => ret c
         | None => stop Undefined
         end ;;
  write (MMIO_SIZE cfg) cls ;;
  write (MMIO_GO cfg) 1 ;;
  poll fuel ;;
  errors <- verify_loop (N.to_nat (DATA_AMOUNT cfg)) 0 input output 0 ;;
  cout "# of resets: " ;;
  resets <- read RESETS_OFFSET ;;
  cout (to_hex resets ++ endl) ;;
  (if 0 <? errors then cout (failure_line errors) else ret tt) ;;
  cout success_line ;;
  free input ;;
  free output.

(** [for (unsigned test=0; test < NUM_TESTS; test++)], with [n] tests
    left. *)
Fixpoint test_loop (fuel : nat) (n : nat) (test : Z) : M W unit :=
  match n with
  | O => ret tt
  | S n' => test_body fuel test ;; test_loop fuel n' (test + 1)
  end.

(** The [try] block. *)
Definition try_block (fuel : nat) : M W unit :=
  new_afu (AFU_ACCEL_UUID cfg) ;;
  test_loop fuel NUM_TESTS 0.

(** The catch clauses: the text sent to [cerr] for an exception one of
    them matches, nothing for an exception that passes them all. *)
Definition handler (e : exn) : option string :=
  match e with
  | ExFpgaResult r =>
      Some (if fpga_result_eqb r FPGA_BUSY then
              "ERROR: All FPGAs busy." ++ endl
            else if fpga_result_eqb r FPGA_NOT_FOUND then
              "ERROR: FPGA with accelerator " ++ AFU_ACCEL_UUID cfg
                ++ " not found." ++ endl
            else "ERROR: " ++ fpgaErrStr host r ++ endl)%string
  | ExRuntimeError what => Some (what ++ endl)%string
  | ExNoDriver => Some ("ERROR: No FPGA driver found." ++ endl)%string
  | ExOther => None
  end.

(** What follows the [try] block: [return EXIT_SUCCESS] at its end; for
    an exception, the clause that catches it and [return EXIT_FAILURE]
    after the clauses, or the exception leaving [main] uncaught. *)
Definition conclusion (r : res unit) : list event * outcome :=
  match r with
  | Done _ => ([], Exit EXIT_SUCCESS)
  | Halt (Raised e) =>
      match handler e with
      | Some msg => ([EvErr msg], Exit EXIT_FAILURE)
      | None => ([], Uncaught e)
      end
  | Halt Spinning => ([], StillPolling)
  | Halt Undefined => ([], UndefinedBehaviour)
  end.

(** [main], each polling loop limited to [fuel] reads of the completion
    register. *)
Definition main (fuel : nat) (w : W) : list event * outcome * W :=
  match try_block fuel w with
  | (t, r, w1) => (t ++ fst (conclusion r), snd (conclusion r), w1)
  end.

End Driver.

Arguments main {W} cfg host fuel w.
Arguments conclusion {W} cfg host r.
Arguments handler {W} cfg host e.
Arguments test_body {W} cfg host fuel test _.
Arguments try_block {W} cfg host fuel _.
Arguments poll {W} cfg host fuel _.

(** ** Shapes of traces *)

(** What the initialisation loop leaves in the trace when [rand] returns
    the values [vs], from index [i] on. *)
Fixpoint fill_trace (cfg : config) (i : Z) (input output : Z) (vs : list Z)
  : list event :=
  match vs with
  | [] => []
  | v :: vs' =>
      EvRand v :: EvStore input i (cast_dma cfg v) :: EvStore output i 0
        :: fill_trace cfg (i + 1) input output vs'
  end.

(** What the comparison loop leaves in the trace when it loads the pairs
    [ps] (element of [output], element of [input]), from index [i] on. *)
Fixpoint verify_trace (i : Z) (input output : Z) (ps : list (Z * Z))
  : list event :=
  match ps with
  | [] => []
  | (o, x) :: ps' =>
      EvLoad output i o :: EvLoad input i x
        :: verify_trace (i + 1) input output ps'
  end.

(** The counter of the comparison loop after the pairs [ps]. *)
Fixpoint tally (errors : Z) (ps : list (Z * Z)) : Z :=
  match ps with
  | [] => errors
  | (o, x) :: ps' =>
      tally (if o =? x then errors else wrap_unsigned (errors + 1)) ps'
  end.

(** The number of indices at which the two loaded elements differ. *)
Definition mismatches (ps : list (Z * Z)) : Z :=
  Z.of_nat (List.length (filter (fun p => negb (fst p =? snd p)) ps)).

(** One iteration of the polling loop that found the register at 0. *)
Definition wait_step (cfg : config) : list event :=
  EvRead (MMIO_DONE cfg) 0
    :: (if SLEEP_WHILE_WAITING cfg then [EvSleep (SLEEP_MS cfg)] else []).

Fixpoint waits (cfg : config) (k : nat) : list event :=
  match k with
  | O => []
  | S k' => wait_step cfg ++ waits cfg k'
  end.

(** The phases of one test, in program order. *)
Inductive phase : Type :=
| Allocate
| Fill
| Program
| Polling
| Compare
| Report
| Release.



(** The events a phase can produce. *)
Definition kind (cfg : config) (p : phase) (e : event) : bool :=
  match p, e with
  | Allocate, (EvMalloc _ _ | EvOut _ | EvThrown (AfuMalloc _) _) => true
  | Fill, (EvRand _ | EvStore _ _ _) => true
  | Program, (EvWrite _ _ | EvThrown (AfuWrite _ _) _) => true
  | Polling, (EvRead off _ | EvThrown (AfuRead off) _) => off =? MMIO_DONE cfg
  | Polling, EvSleep _ => true
  | Compare, EvLoad _ _ _ => true
  | Report, EvOut _ => true
  | Report, (EvRead off _ | EvThrown (AfuRead off) _) => off =? RESETS_OFFSET
  | Release, (EvFree _ | EvThrown (AfuFree _) _) => true
  | _, _ => false
  end.



(** The trace of a test that ran to its end. *)
Definition full_trace (cfg : config) (test input output : Z) (vs : list Z)
  (cls : Z) (k : nat) (v : Z) (ps : list (Z * Z)) (resets : Z)
  : list event :=
  [EvMalloc (DATA_AMOUNT cfg) input; EvMalloc (DATA_AMOUNT cfg) output;
   EvOut (hex_of_pointer input ++ endl);
   EvOut (hex_of_pointer output ++ endl);
   EvOut (test_line test)]
  ++ fill_trace cfg 0 input output vs
  ++ [EvWrite (MMIO_RD_ADDR cfg) input; EvWrite (MMIO_WR_ADDR cfg) output;
      EvWrite (MMIO_SIZE cfg) cls; EvWrite (MMIO_GO cfg) 1]
  ++ (waits cfg k ++ [EvRead (MMIO_DONE cfg) v])
  ++ verify_trace 0 input output ps
  ++ ([EvOut "# of resets: "; EvRead RESETS_OFFSET resets;
       EvOut (to_hex resets ++ endl)]
      ++ (if 0 <? tally 0 ps then [EvOut (failure_line (tally 0 ps))] else [])
      ++ [EvOut success_line])
  ++ [EvFree input; EvFree output].


(** Classes of events. *)
Definition is_thrown (e : event) : bool :=
  match e with EvThrown _ _ => true | _ => false end.

Definition is_load (e : event) : bool :=
  match e with EvLoad _ _ _ => true | _ => false end.

Definition is_write (e : event) : bool :=
  match e with EvWrite _ _ => true | _ => false end.


(** Allocations and releases, attempted ones included. *)
Definition buffer_call (e : event) : bool :=
  match e with
  | EvMalloc _ _ | EvFree _
  | EvThrown (AfuMalloc _) _ | EvThrown (AfuFree _) _ => true
  | _ => false
  end.

Definition no_throw (t : list event) : bool :=
  forallb (fun e => negb (is_thrown e)) t.

(** A computation that throws stops there: a result [Raised e] comes with
    a trace whose last event is that throw, and no other trace holds a
    throw. *)
Definition throws_last {W A : Type} (x : list event * res A * W) : Prop :=
  match x with
  | (t, Halt (Raised e), _) =>
      exists pre c, t = pre ++ [EvThrown c e] /\ no_throw pre = true
  | (t, _, _) => no_throw t = true
  end.

(** Register accesses in a trace, attempted ones included. *)
Definition accessed (off : Z) (e : event) : Prop :=
  match e with
  | EvWrite o _ | EvRead o _ => o = off
  | EvThrown (AfuWrite o _) _ | EvThrown (AfuRead o) _ => o = off
  | _ => False
  end.

(** The register accesses of one test on the buffers [input] and
    [output]: the four writes with their values, reads of the completion
    register and of the literal offset. *)
Definition mmio_allowed (cfg : config) (input output : Z) (e : event)
  : Prop :=
  match e with
  | EvWrite off v | EvThrown (AfuWrite off v) _ =>
      (off = MMIO_RD_ADDR cfg /\ v = input)
      \/ (off = MMIO_WR_ADDR cfg /\ v = output)
      \/ (off = MMIO_SIZE cfg /\ num_cls cfg = Some v)
      \/ (off = MMIO_GO cfg /\ v = 1)
  | EvRead off _ | EvThrown (AfuRead off) _ =>
      off = MMIO_DONE cfg \/ off = RESETS_OFFSET
  | _ => True
  end.

(** The offsets the settings name. *)
Definition named_offsets (cfg : config) : list Z :=
  [MMIO_RD_ADDR cfg; MMIO_WR_ADDR cfg; MMIO_SIZE cfg; MMIO_GO cfg;
   MMIO_DONE cfg].

(** Register accesses as events, attempted ones included. *)
Definition is_mmio (e : event) : bool :=
  match e with
  | EvWrite _ _ | EvRead _ _
  | EvThrown (AfuWrite _ _) _ | EvThrown (AfuRead _) _ => true
  | _ => false
  end.

(** The offset of a register read, attempted or done. *)
Definition read_at (e : event) : option Z :=
  match e with
  | EvRead off _ | EvThrown (AfuRead off) _ => Some off
  | _ => None
  end.

(** The exact ceiling of [a / b] for [0 < b]. *)
Definition ceil_div (a b : Z) : Z := - ((- a) / b).

(** ** A simulated platform

    A small executable world to run [main] in: a bump allocator, a memory
    of buffer elements, a linear congruential [rand], and a DMA engine
    that can be told to copy or not, to stay busy for a number of polls,
    and to make one chosen wrapper call throw. *)
Module Sim.

Record engine : Type := {
  copies : bool;
  latency : nat;
  fails_at : option (nat * exn)
}.

Record world : Type := {
  mem : list (Z * Z * Z);
  rd_addr : Z;
  wr_addr : Z;
  seed : Z;
  brk : Z;
  calls : nat;
  busy : nat
}.

Definition init : world :=
  {| mem := []; rd_addr := 0; wr_addr := 0; seed := 1; brk := 0x10000;
     calls := 0; busy := 0 |}.

Fixpoint lookup (m : list (Z * Z * Z)) (p i : Z) : Z :=
  match m with
  | [] => 0
  | (q, j, v) :: m' => if (q =? p) && (j =? i) then v else lookup m' p i
  end.

Definition copy_buffer (m : list (Z * Z * Z)) (src dst : Z)
  : list (Z * Z * Z) :=
  map (fun c => (dst, snd (fst c), snd c))
      (filter (fun c => fst (fst c) =? src) m) ++ m.

Definition tick (w : world) : world :=
  {| mem := mem w; rd_addr := rd_addr w; wr_addr := wr_addr w;
     seed := seed w; brk := brk w; calls := S (calls w); busy := busy w |}.

(** The exception the engine injects into the current wrapper call. *)
Definition injected (eng : engine) (w : world) : option exn :=
  match fails_at eng with
  | Some (n, e) => if Nat.eqb n (calls w) then Some e else None
  | None => None
  end.

Definition guarded {A : Type} (eng : engine) (op : world -> A * world)
  (w : world) : (exn + A) * world :=
  match injected eng w with
  | Some e => (inl e, tick w)
  | None => match op (tick w) with (a, w1) => (inr a, w1) end
  end.

Definition do_malloc (n : N) (elt : Z) (w : world) : Z * world :=
  (brk w,
   {| mem := mem w; rd_addr := rd_addr w; wr_addr := wr_addr w;
      seed := seed w; brk := brk w + Z.max 64 (Z.of_N n * elt);
      calls := calls w; busy := busy w |}).

Definition do_write (cfg : config) (eng : engine) (off v : Z) (w : world)
  : unit * world :=
  if off =? MMIO_RD_ADDR cfg then
    (tt, {| mem := mem w; rd_addr := v; wr_addr := wr_addr w;
            seed := seed w; brk := brk w; calls := calls w;
            busy := busy w |})
  else if off =? MMIO_WR_ADDR cfg then
    (tt, {| mem := mem w; rd_addr := rd_addr w; wr_addr := v;
            seed := seed w; brk := brk w; calls := calls w;
            busy := busy w |})
  else if (off =? MMIO_GO cfg) && (v =? 1) then
    (tt, {| mem := if copies eng
                   then copy_buffer (mem w) (rd_addr w) (wr_addr w)
                   else mem w;
            rd_addr := rd_addr w; wr_addr := wr_addr w;
            seed := seed w; brk := brk w; calls := calls w;
            busy := latency eng |})
  else (tt, w).

Definition do_read (cfg : config) (off : Z) (w : world) : Z * world :=
  if off =? MMIO_DONE cfg then
    match busy w with
    | O => (1, w)
    | S b =>
        (0, {| mem := mem w; rd_addr := rd_addr w; wr_addr := wr_addr w;
               seed := seed w; brk := brk w; calls := calls w; busy := b |})
    end
  else (0, w).

Definition do_rand (w : world) : Z * world :=
  let s := (seed w * 1103515245 + 12345) mod 2 ^ 31 in
  (s, {| mem := mem w; rd_addr := rd_addr w; wr_addr := wr_addr w;
         seed := s; brk := brk w; calls := calls w; busy := busy w |}).

Definition do_store (p i v : Z) (w : world) : world :=
  {| mem := (p, i, v) :: mem w; rd_addr := rd_addr w; wr_addr := wr_addr w;
     seed := seed w; brk := brk w; calls := calls w; busy := busy w |}.

(** The strings of the SDK's [fpgaErrStr]. *)
Definition err_str (r : fpga_result) : string :=
  match r with
  | FPGA_OK => "success"
  | FPGA_INVALID_PARAM => "invalid parameter"
  | FPGA_BUSY => "resource busy"
  | FPGA_EXCEPTION => "exception"
  | FPGA_NOT_FOUND => "not found"
  | FPGA_NO_MEMORY => "no memory"
  | FPGA_NOT_SUPPORTED => "not supported"
  | FPGA_NO_DRIVER => "no driver available"
  | FPGA_NO_DAEMON => "no fpga daemon running"
  | FPGA_NO_ACCESS => "insufficient privileges"
  | FPGA_RECONF_ERROR => "reconfiguration error"
  end.

Definition host (cfg : config) (eng : engine) : Host world :=
  {| afu_new := fun _ => guarded eng (fun w => (tt, w));
     afu_malloc := fun n elt => guarded eng (do_malloc n elt);
     afu_write := fun off v => guarded eng (do_write cfg eng off v);
     afu_read := fun off => guarded eng (do_read cfg off);
     afu_free := fun _ => guarded eng (fun w => (tt, w));
     c_rand := do_rand;
     mem_store := do_store;
     mem_load := fun p i w => (lookup (mem w) p i, w);
     sleep_for := fun _ w => w;
     fpgaErrStr := err_str |}.

(** Settings in the style of the example's config.h: four 8-byte
    elements, 64-byte cache lines. *)
Definition cfg4 : config :=
  {| AFU_ACCEL_UUID := "9f81ba12-1d38-4cc7-953a-dafeef45065b";
     DATA_AMOUNT := 4;
     dma_bytes := 8;
     dma_signed := false;
     CL_BYTES := 64;
     MMIO_RD_ADDR := 0x0052;
     MMIO_WR_ADDR := 0x0054;
     MMIO_SIZE := 0x0056;
     MMIO_GO := 0x0050;
     MMIO_DONE := 0x0058;
     SLEEP_WHILE_WAITING := true;
     SLEEP_MS := 10 |}.

(** An engine that copies and is done at the third poll. *)
Definition good : engine :=
  {| copies := true; latency := 2; fails_at := None |}.

(** An engine that reports completion but moves no data. *)
Definition idle : engine :=
  {| copies := false; latency := 0; fails_at := None |}.

(** An engine whose wrapper throws at call number [n]. *)
Definition failing (n : nat) (e : exn) : engine :=
  {| copies := true; latency := 2; fails_at := Some (n, e) |}.

End Sim.

(** ** Concrete settings and runs *)

(** Settings whose byte count does not fit in an [unsigned]: 2^30
    elements of four bytes. *)
Definition cfg_4GiB : config :=
  {| AFU_ACCEL_UUID := AFU_ACCEL_UUID Sim.cfg4;
     DATA_AMOUNT := 1073741824;
     dma_bytes := 4;
     dma_signed := false;
     CL_BYTES := 64;
     MMIO_RD_ADDR := MMIO_RD_ADDR Sim.cfg4;
     MMIO_WR_ADDR := MMIO_WR_ADDR Sim.cfg4;
     MMIO_SIZE := MMIO_SIZE Sim.cfg4;
     MMIO_GO := MMIO_GO Sim.cfg4;
     MMIO_DONE := MMIO_DONE Sim.cfg4;
     SLEEP_WHILE_WAITING := true;
     SLEEP_MS := 10 |}.

(** Settings whose byte count is not a single-precision number: 2^24 + 1
    elements of one byte. *)
Definition cfg_16MiB1 : config :=
  {| AFU_ACCEL_UUID := AFU_ACCEL_UUID Sim.cfg4;
     DATA_AMOUNT := 16777217;
     dma_bytes := 1;
     dma_signed := false;
     CL_BYTES := 64;
     MMIO_RD_ADDR := MMIO_RD_ADDR Sim.cfg4;
     MMIO_WR_ADDR := MMIO_WR_ADDR Sim.cfg4;
     MMIO_SIZE := MMIO_SIZE Sim.cfg4;
     MMIO_GO := MMIO_GO Sim.cfg4;
     MMIO_DONE := MMIO_DONE Sim.cfg4;
     SLEEP_WHILE_WAITING := true;
     SLEEP_MS := 10 |}.

(** The run with the engine that copies: three polls, no mismatch. *)
Definition good_run : list event * outcome * Sim.world :=
  main Sim.cfg4 (Sim.host Sim.cfg4 Sim.good) 5 Sim.init.

(** The run with the engine that moves no data: four mismatches. *)
Definition idle_run : list event * outcome * Sim.world :=
  main Sim.cfg4 (Sim.host Sim.cfg4 Sim.idle) 5 Sim.init.

(** The one test of that run, on its own. *)
Definition good_test : list event * res unit * Sim.world :=
  test_body Sim.cfg4 (Sim.host Sim.cfg4 Sim.good) 5 0 Sim.init.

(** The run in which the write of the write address throws. *)
Definition busy_run : list event * outcome * Sim.world :=
  main Sim.cfg4
    (Sim.host Sim.cfg4 (Sim.failing 4 (ExFpgaResult FPGA_BUSY))) 5 Sim.init.

(** ** Every way a test can run

    The traces of one test, listed by the point where the test stops.
    [allocated], [programmed], [compared] and [reported] are the traces up
    to the end of the initialisation, of the register writes, of the
    comparison and of the report. *)
Definition allocated (cfg : config) (test input output : Z) (vs : list Z)
  : list event :=
  [EvMalloc (DATA_AMOUNT cfg) input; EvMalloc (DATA_AMOUNT cfg) output;
   EvOut (hex_of_pointer input ++ endl);
   EvOut (hex_of_pointer output ++ endl);
   EvOut (test_line test)]
  ++ fill_trace cfg 0 input output vs.

Definition programmed (cfg : config) (test input output : Z) (vs : list Z)
  (cls : Z) : list event :=
  allocated cfg test input output vs
  ++ [EvWrite (MMIO_RD_ADDR cfg) input; EvWrite (MMIO_WR_ADDR cfg) output;
      EvWrite (MMIO_SIZE cfg) cls; EvWrite (MMIO_GO cfg) 1].

Definition compared (cfg : config) (test input output : Z) (vs : list Z)
  (cls : Z) (k : nat) (v : Z) (ps : list (Z * Z)) : list event :=
  programmed cfg test input output vs cls
  ++ (waits cfg k ++ [EvRead (MMIO_DONE cfg) v])
  ++ verify_trace 0 input output ps.

Definition reported (cfg : config) (test input output : Z) (vs : list Z)
  (cls : Z) (k : nat) (v : Z) (ps : list (Z * Z)) (resets : Z)
  : list event :=
  compared cfg test input output vs cls k v ps
  ++ [EvOut "# of resets: "; EvRead RESETS_OFFSET resets;
      EvOut (to_hex resets ++ endl)]
  ++ (if 0 <? tally 0 ps then [EvOut (failure_line (tally 0 ps))] else [])
  ++ [EvOut success_line].

Inductive body_run (cfg : config) (fuel : nat) (test : Z)
  : list event -> res unit -> Prop :=
| Run_first_malloc_throws (e : exn) :
    body_run cfg fuel test
      [EvThrown (AfuMalloc (DATA_AMOUNT cfg)) e] (Halt (Raised e))
| Run_second_malloc_throws (input : Z) (e : exn) :
    body_run cfg fuel test
      [EvMalloc (DATA_AMOUNT cfg) input;
       EvThrown (AfuMalloc (DATA_AMOUNT cfg)) e] (Halt (Raised e))
| Run_write_rd_throws (input output : Z) (vs : list Z) (e : exn) :
    List.length vs = N.to_nat (DATA_AMOUNT cfg) ->
    body_run cfg fuel test
      (allocated cfg test input output vs
       ++ [EvThrown (AfuWrite (MMIO_RD_ADDR cfg) input) e])
      (Halt (Raised e))
| Run_write_wr_throws (input output : Z) (vs : list Z) (e : exn) :
    List.length vs = N.to_nat (DATA_AMOUNT cfg) ->
    body_run cfg fuel test
      (allocated cfg test input output vs
       ++ [EvWrite (MMIO_RD_ADDR cfg) input;
           EvThrown (AfuWrite (MMIO_WR_ADDR cfg) output) e])
      (Halt (Raised e))
| Run_size_undefined (input output : Z) (vs : list Z) :
    List.length vs = N.to_nat (DATA_AMOUNT cfg) ->
    num_cls cfg = None ->
    body_run cfg fuel test
      (allocated cfg test input output vs
       ++ [EvWrite (MMIO_RD_ADDR cfg) input;
           EvWrite (MMIO_WR_ADDR cfg) output])
      (Halt Undefined)
| Run_write_size_throws (input output : Z) (vs : list Z) (cls : Z)
    (e : exn) :
    List.length vs = N.to_nat (DATA_AMOUNT cfg) ->
    num_cls cfg = Some cls ->
    body_run cfg fuel test
      (allocated cfg test input output vs
       ++ [EvWrite (MMIO_RD_ADDR cfg) input;
           EvWrite (MMIO_WR_ADDR cfg) output;
           EvThrown (AfuWrite (MMIO_SIZE cfg) cls) e])
      (Halt (Raised e))
| Run_write_go_throws (input output : Z) (vs : list Z) (cls : Z)
    (e : exn) :
    List.length vs = N.to_nat (DATA_AMOUNT cfg) ->
    num_cls cfg = Some cls ->
    body_run cfg fuel test
      (allocated cfg test input output vs
       ++ [EvWrite (MMIO_RD_ADDR cfg) input;
           EvWrite (MMIO_WR_ADDR cfg) output;
           EvWrite (MMIO_SIZE cfg) cls;
           EvThrown (AfuWrite (MMIO_GO cfg) 1) e])
      (Halt (Raised e))
| Run_poll_throws (input output : Z) (vs : list Z) (cls : Z) (k : nat)
    (e : exn) :
    List.length vs = N.to_nat (DATA_AMOUNT cfg) ->
    num_cls cfg = Some cls ->
    (k < fuel)%nat ->
    body_run cfg fuel test
      (programmed cfg test input output vs cls
       ++ waits cfg k ++ [EvThrown (AfuRead (MMIO_DONE cfg)) e])
      (Halt (Raised e))
| Run_still_polling (input output : Z) (vs : list Z) (cls : Z) :
    List.length vs = N.to_nat (DATA_AMOUNT cfg) ->
    num_cls cfg = Some cls ->
    body_run cfg fuel test
      (programmed cfg test input output vs cls ++ waits cfg fuel)
      (Halt Spinning)
| Run_resets_read_throws (input output : Z) (vs : list Z) (cls : Z)
    (k : nat) (v : Z) (ps : list (Z * Z)) (e : exn) :
    List.length vs = N.to_nat (DATA_AMOUNT cfg) ->
    num_cls cfg = Some cls ->
    (k < fuel)%nat -> v <> 0 ->
    List.length ps = N.to_nat (DATA_AMOUNT cfg) ->
    body_run cfg fuel test
      (compared cfg test input output vs cls k v ps
       ++ [EvOut "# of resets: "; EvThrown (AfuRead RESETS_OFFSET) e])
      (Halt (Raised e))
| Run_first_free_throws (input output : Z) (vs : list Z) (cls : Z)
    (k : nat) (v : Z) (ps : list (Z * Z)) (resets : Z) (e : exn) :
    List.length vs = N.to_nat (DATA_AMOUNT cfg) ->
    num_cls cfg = Some cls ->
    (k < fuel)%nat -> v <> 0 ->
    List.length ps = N.to_nat (DATA_AMOUNT cfg) ->
    body_run cfg fuel test
      (reported cfg test input output vs cls k v ps resets
       ++ [EvThrown (AfuFree input) e])
      (Halt (Raised e))
| Run_second_free_throws (input output : Z) (vs : list Z) (cls : Z)
    (k : nat) (v : Z) (ps : list (Z * Z)) (resets : Z) (e : exn) :
    List.length vs = N.to_nat (DATA_AMOUNT cfg) ->
    num_cls cfg = Some cls ->
    (k < fuel)%nat -> v <> 0 ->
    List.length ps = N.to_nat (DATA_AMOUNT cfg) ->
    body_run cfg fuel test
      (reported cfg test input output vs cls k v ps resets
       ++ [EvFree input; EvThrown (AfuFree output) e])
      (Halt (Raised e))
| Run_done (input output : Z) (vs : list Z) (cls : Z)
    (k : nat) (v : Z) (ps : list (Z * Z)) (resets : Z) :
    List.length vs = N.to_nat (DATA_AMOUNT cfg) ->
    num_cls cfg = Some cls ->
    (k < fuel)%nat -> v <> 0 ->
    List.length ps = N.to_nat (DATA_AMOUNT cfg) ->
    body_run cfg fuel test
      (reported cfg test input output vs cls k v ps resets
       ++ [EvFree input; EvFree output])
      (Done tt).

Definition is_free (e : event) : bool :=
  match e with EvFree _ => true | _ => false end.

Definition is_malloc (e : event) : bool :=
  match e with EvMalloc _ _ => true | _ => false end.

Definition is_err (e : event) : bool :=
  match e with EvErr _ => true | _ => false end.

Definition is_store (e : event) : bool :=
  match e with EvStore _ _ _ => true | _ => false end.

(** A register read whose value the platform has returned. *)
Definition answered {W : Type} (host : Host W) (e : event) : Prop :=
  match e with
  | EvRead off v => exists w0 w1, afu_read host off w0 = (inr v, w1)
  | _ => True
  end.

(** Calls that read or write a register. *)
Definition register_call (c : afu_call) : bool :=
  match c with AfuWrite _ _ | AfuRead _ => true | _ => false end.

(** An access to an element of one of the two buffers, inside it. *)
Definition access_in_bounds (cfg : config) (input output : Z) (e : event)
  : Prop :=
  match e with
  | EvStore p i _ | EvLoad p i _ =>
      (p = input \/ p = output) /\ 0 <= i < Z.of_N (DATA_AMOUNT cfg)
  | _ => True
  end.

(** ** A platform that cooperates *)

(** No wrapper call throws. *)
Record cooperative {W : Type} (host : Host W) : Prop := {
  new_returns :
    forall uuid w, exists w1, afu_new host uuid w = (inr tt, w1);
  malloc_returns :
    forall n b w, exists p w1, afu_malloc host n b w = (inr p, w1);
  write_returns :
    forall off v w, exists w1, afu_write host off v w = (inr tt, w1);
  read_returns :
    forall off w, exists v w1, afu_read host off w = (inr v, w1);
  free_returns :
    forall p w, exists w1, afu_free host p w = (inr tt, w1)
}.

(** From the world [w], the completion register reads 0 for [k] polls
    (each followed by the configured sleep) and then reads non-zero. *)
Fixpoint done_after {W : Type} (cfg : config) (host : Host W) (k : nat)
  (w : W) : Prop :=
  match k with
  | O => exists v w1, afu_read host (MMIO_DONE cfg) w = (inr v, w1) /\ v <> 0
  | S k' =>
      exists w1,
        afu_read host (MMIO_DONE cfg) w = (inr 0, w1)
        /\ done_after cfg host k'
             (if SLEEP_WHILE_WAITING cfg
              then sleep_for host (SLEEP_MS cfg) w1 else w1)
  end.

(** A computation that runs to its end from every world. *)
Definition finishes {W A : Type} (m : M W A) : Prop :=
  forall w, exists t a w', m w = (t, Done a, w').

(** ** More platforms and settings *)

(** A platform whose wrapper never throws and whose registers all read
    [done]; it moves no data. *)
Definition plain_host (done : Z) : Host Sim.world :=
  {| afu_new := fun _ w => (inr tt, w);
     afu_malloc := fun n b w =>
       (inr (Sim.brk w), snd (Sim.do_malloc n b w));
     afu_write := fun _ _ w => (inr tt, w);
     afu_read := fun _ w => (inr done, w);
     afu_free := fun _ w => (inr tt, w);
     c_rand := Sim.do_rand;
     mem_store := Sim.do_store;
     mem_load := fun p i w => (Sim.lookup (Sim.mem w) p i, w);
     sleep_for := fun _ w => w;
     fpgaErrStr := Sim.err_str |}.

(** Settings with no element to transfer. *)
Definition cfg_empty : config :=
  {| AFU_ACCEL_UUID := AFU_ACCEL_UUID Sim.cfg4;
     DATA_AMOUNT := 0;
     dma_bytes := 8;
     dma_signed := false;
     CL_BYTES := 64;
     MMIO_RD_ADDR := MMIO_RD_ADDR Sim.cfg4;
     MMIO_WR_ADDR := MMIO_WR_ADDR Sim.cfg4;
     MMIO_SIZE := MMIO_SIZE Sim.cfg4;
     MMIO_GO := MMIO_GO Sim.cfg4;
     MMIO_DONE := MMIO_DONE Sim.cfg4;
     SLEEP_WHILE_WAITING := true;
     SLEEP_MS := 10 |}.

(** Settings with a cache line of no bytes. *)
Definition cfg_no_line : config :=
  {| AFU_ACCEL_UUID := AFU_ACCEL_UUID Sim.cfg4;
     DATA_AMOUNT := 4;
     dma_bytes := 8;
     dma_signed := false;
     CL_BYTES := 0;
     MMIO_RD_ADDR := MMIO_RD_ADDR Sim.cfg4;
     MMIO_WR_ADDR := MMIO_WR_ADDR Sim.cfg4;
     MMIO_SIZE := MMIO_SIZE Sim.cfg4;
     MMIO_GO := MMIO_GO Sim.cfg4;
     MMIO_DONE := MMIO_DONE Sim.cfg4;
     SLEEP_WHILE_WAITING := true;
     SLEEP_MS := 10 |}.

(** The run with no element. *)
Definition empty_run : list event * outcome * Sim.world :=
  main cfg_empty (Sim.host cfg_empty Sim.good) 5 Sim.init.

(** The run in which the first [afu.free] throws. *)
Definition free_run : list event * outcome * Sim.world :=
  main Sim.cfg4 (Sim.host Sim.cfg4 (Sim.failing 11 ExNoDriver)) 5 Sim.init.

(** The run on the platform that is never done. *)
Definition stuck_run : list event * outcome * Sim.world :=
  main Sim.cfg4 (plain_host 0) 5 Sim.init.

(** A world of the simulated platform in which the engine is busy for two
    more polls. *)
Definition busy_world : Sim.world :=
  {| Sim.mem := []; Sim.rd_addr := 0; Sim.wr_addr := 0; Sim.seed := 1;
     Sim.brk := 0x10000; Sim.calls := 0; Sim.busy := 2 |}.

(** * Properties *)

(** ** Lists of events *)



(** Where an event of a trace stands when the trace is given in parts. *)
Lemma split_cons (x e : event) (l pre post : list event) :
  x :: l = pre ++ e :: post ->
  (pre = [] /\ e = x /\ post = l)
  \/ exists pre', pre = x :: pre' /\ l = pre' ++ e :: post.
Proof.
  destruct pre as [|y pre]; cbn [app]; intros H; injection H as -> ->.
  - left. auto.
  - right. exists pre. auto.
Qed.

Lemma split_app (l1 l2 pre post : list event) (e : event) :
  l1 ++ l2 = pre ++ e :: post ->
  (exists m, l1 = pre ++ e :: m /\ post = m ++ l2)
  \/ exists pre', pre = l1 ++ pre' /\ l2 = pre' ++ e :: post.
Proof.
  revert pre. induction l1 as [|a l1 IH]; intros pre H.
  - right. exists pre. auto.
  - cbn [app] in H. apply split_cons in H.
    destruct H as [[-> [-> ->]] | [pre' [-> H]]].
    + left. exists l1. auto.
    + destruct (IH pre' H) as [[m [-> ->]] | [p [-> ->]]].
      * left. exists m. auto.
      * right. exists p. auto.
Qed.

Lemma filter_nil_split (f : event -> bool) (m1 m2 : list event) (x : event) :
  filter f (m1 ++ x :: m2) = [] ->
  f x = false /\ filter f m1 = [] /\ filter f m2 = [].
Proof.
  rewrite filter_app. cbn [filter]. intros H.
  apply app_eq_nil in H. destruct H as [H1 H2].
  destruct (f x); [discriminate|]. auto.
Qed.

Lemma split_none (f : event -> bool) (l pre post : list event) (e : event) :
  filter f l = [] -> f e = true -> l = pre ++ e :: post -> False.
Proof.
  intros Hl He ->. apply filter_nil_split in Hl. destruct Hl as [Hf _].
  congruence.
Qed.

Lemma split_skip (f : event -> bool) (l1 l2 pre post : list event)
  (e : event) :
  filter f l1 = [] -> f e = true ->
  l1 ++ l2 = pre ++ e :: post ->
  exists pre', pre = l1 ++ pre' /\ l2 = pre' ++ e :: post.
Proof.
  intros Hl He H. apply split_app in H.
  destruct H as [[m [H _]] | H]; [|exact H].
  exfalso. exact (split_none f _ _ _ _ Hl He H).
Qed.

(** ** The comparison counter *)

Lemma mismatches_cons (o x : Z) (ps : list (Z * Z)) :
  mismatches ((o, x) :: ps)
  = (if o =? x then 0 else 1) + mismatches ps.
Proof.
  unfold mismatches. cbn [filter fst snd].
  destruct (o =? x); cbn [negb List.length]; lia.
Qed.

Lemma mismatches_bounds (ps : list (Z * Z)) :
  0 <= mismatches ps <= Z.of_nat (List.length ps).
Proof.
  induction ps as [|[o x] ps IH].
  - unfold mismatches. cbn [filter List.length]. lia.
  - rewrite mismatches_cons. cbn [List.length].
    destruct (o =? x); lia.
Qed.


Section Runs.

Context {W : Type}.
Variable cfg : config.
Variable host : Host W.

(** ** Inversion of computations *)

Lemma bind_inv {A B : Type} (m : M W A) (k : A -> M W B) (w : W)
  (t : list event) (r : res B) (w' : W) :
  bind m k w = (t, r, w') ->
  (exists h, m w = (t, Halt h, w') /\ r = Halt h)
  \/ (exists t1 a w1 t2,
         m w = (t1, Done a, w1) /\ k a w1 = (t2, r, w') /\ t = t1 ++ t2).
Proof.
  unfold bind. destruct (m w) as [[t1 [a|h]] w1].
  - destruct (k a w1) as [[t2 r2] w2] eqn:Hk. intros H.
    injection H as <- <- <-. right. exists t1, a, w1, t2. auto.
  - intros H. injection H as <- <- <-. left. exists h. auto.
Qed.

Lemma call_inv {A : Type} (c : afu_call) (ev : A -> event)
  (op : W -> (exn + A) * W) (w : W) (t : list event) (r : res A) (w' : W) :
  call c ev op w = (t, r, w') ->
  (exists e, t = [EvThrown c e] /\ r = Halt (Raised e))
  \/ (exists a, t = [ev a] /\ r = Done a).
Proof.
  unfold call. destruct (op w) as [[e|a] w1]; intros H;
    injection H as <- <- <-; [left; exists e | right; exists a]; auto.
Qed.

(** A wrapper call followed by the rest of the program. *)
Lemma bind_call_inv {A B : Type} (c : afu_call) (ev : A -> event)
  (op : W -> (exn + A) * W) (k : A -> M W B) (w : W)
  (t : list event) (r : res B) (w' : W) :
  bind (call c ev op) k w = (t, r, w') ->
  (exists e, t = [EvThrown c e] /\ r = Halt (Raised e))
  \/ (exists a w1 t2, k a w1 = (t2, r, w') /\ t = ev a :: t2).
Proof.
  intros H. apply bind_inv in H.
  destruct H as [[h [Hc ->]] | [t1 [a [w1 [t2 [Hc [Hk ->]]]]]]];
    apply call_inv in Hc;
    destruct Hc as [[e [-> He]] | [a' [-> Ha]]]; try discriminate.
  - injection He as ->. left. exists e. auto.
  - injection Ha as ->. right. exists a', w1, t2. auto.
Qed.

Lemma bind_cout_inv {B : Type} (s : string) (k : unit -> M W B) (w : W)
  (t : list event) (r : res B) (w' : W) :
  bind (cout s) k w = (t, r, w') ->
  exists t2, k tt w = (t2, r, w') /\ t = EvOut s :: t2.
Proof.
  unfold bind, cout. destruct (k tt w) as [[t2 r2] w2]. intros H.
  injection H as <- <- <-. exists t2. auto.
Qed.

(** ** The loops *)

(** The initialisation loop always runs to its end and leaves one [rand]
    and two stores per element. *)
Lemma fill_loop_run (n : nat) (i input output : Z) (w : W) :
  exists vs w',
    fill_loop cfg host n i input output w
    = (fill_trace cfg i input output vs, Done tt, w')
    /\ List.length vs = n.
Proof.
  revert i w. induction n as [|n IH]; intros i w.
  - exists [], w. split; reflexivity.
  - simpl fill_loop. unfold bind at 1, rand.
    destruct (c_rand host w) as [v w1].
    unfold bind at 1, store. unfold bind at 1.
    destruct (IH (i + 1)
                (mem_store host output i 0
                   (mem_store host input i (cast_dma cfg v) w1)))
      as [vs [w' [Hrun Hlen]]].
    rewrite Hrun. exists (v :: vs), w'. split.
    + reflexivity.
    + simpl. congruence.
Qed.

(** The comparison loop always runs to its end, loads one pair per
    element and returns the counter over the loaded pairs. *)
Lemma verify_loop_run (n : nat) (i input output errors : Z) (w : W) :
  exists ps w',
    verify_loop host n i input output errors w
    = (verify_trace i input output ps, Done (tally errors ps), w')
    /\ List.length ps = n.
Proof.
  revert i errors w. induction n as [|n IH]; intros i errors w.
  - exists [], w. split; reflexivity.
  - simpl verify_loop. unfold bind at 1, load.
    destruct (mem_load host output i w) as [o w1].
    unfold bind at 1.
    destruct (mem_load host input i w1) as [x w2].
    destruct (IH (i + 1) (if o =? x then errors
                          else wrap_unsigned (errors + 1)) w2)
      as [ps [w' [Hrun Hlen]]].
    rewrite Hrun. exists ((o, x) :: ps), w'. split.
    + reflexivity.
    + simpl. congruence.
Qed.

(** The polling loop: [k] zero reads, then the end of the loop, a throw,
    or the end of the budget. *)
Lemma poll_run (fuel : nat) (w : W) (t : list event) (r : res unit)
  (w' : W) :
  poll cfg host fuel w = (t, r, w') ->
  exists k,
    (k <= fuel)%nat
    /\ ((r = Done tt /\ (k < fuel)%nat
         /\ exists v, v <> 0 /\ t = waits cfg k ++ [EvRead (MMIO_DONE cfg) v])
        \/ (k < fuel)%nat
           /\ (exists e, r = Halt (Raised e)
               /\ t = waits cfg k ++ [EvThrown (AfuRead (MMIO_DONE cfg)) e])
        \/ (r = Halt Spinning /\ k = fuel /\ t = waits cfg k)).
Proof.
  revert w t r w'. induction fuel as [|fuel IH]; intros w t r w' H.
  - injection H as <- <- <-. exists O. split; [lia|].
    right. right. auto.
  - simpl poll in H. unfold read in H. apply bind_call_inv in H.
    destruct H as [[e [-> ->]] | [v [w1 [t2 [Hk ->]]]]].
    + exists O. split; [lia|]. right. left. split; [lia|].
      exists e. auto.
    + destruct (v =? 0) eqn:Hv.
      * apply Z.eqb_eq in Hv. subst v.
        assert (Hrest : exists w2 t3,
                   poll cfg host fuel w2 = (t3, r, w')
                   /\ EvRead (MMIO_DONE cfg) 0 :: t2 = wait_step cfg ++ t3).
        { unfold wait_step. destruct (SLEEP_WHILE_WAITING cfg).
          - unfold bind at 1, sleep in Hk.
            destruct (poll cfg host fuel (sleep_for host (SLEEP_MS cfg) w1))
              as [[t3 r3] w3] eqn:Hp.
            injection Hk as <- <- <-. eauto.
          - unfold bind at 1, ret in Hk.
            destruct (poll cfg host fuel w1) as [[t3 r3] w3] eqn:Hp.
            injection Hk as <- <- <-. eauto. }
        destruct Hrest as [w2 [t3 [Hp ->]]].
        destruct (IH _ _ _ _ Hp) as [k [Hle Hcases]].
        exists (S k). split; [lia|]. cbn [waits].
        destruct Hcases as [[-> [Hlt [v [Hv ->]]]]
                           | [[Hlt [e [-> ->]]] | [-> [-> ->]]]].
        -- left. split; [reflexivity|]. split; [lia|]. exists v.
           rewrite <- app_assoc. auto.
        -- right. left. split; [lia|]. exists e.
           rewrite <- app_assoc. auto.
        -- right. right. auto.
      * apply Z.eqb_neq in Hv. injection Hk as <- <- <-.
        exists O. split; [lia|]. left. split; [reflexivity|].
        split; [lia|]. exists v. auto.
Qed.

Lemma bind_fill_inv {B : Type} (n : nat) (i input output : Z)
  (k : unit -> M W B) (w : W) (t : list event) (r : res B) (w' : W) :
  bind (fill_loop cfg host n i input output) k w = (t, r, w') ->
  exists vs w1 t2,
    List.length vs = n /\ k tt w1 = (t2, r, w')
    /\ t = fill_trace cfg i input output vs ++ t2.
Proof.
  intros H. destruct (fill_loop_run n i input output w)
    as [vs [w1 [Hrun Hlen]]].
  unfold bind in H. rewrite Hrun in H.
  destruct (k tt w1) as [[t2 r2] w2] eqn:Hk.
  injection H as <- <- <-. exists vs, w1, t2. auto.
Qed.

Lemma bind_verify_inv {B : Type} (n : nat) (i input output errors : Z)
  (k : Z -> M W B) (w : W) (t : list event) (r : res B) (w' : W) :
  bind (verify_loop host n i input output errors) k w = (t, r, w') ->
  exists ps w1 t2,
    List.length ps = n /\ k (tally errors ps) w1 = (t2, r, w')
    /\ t = verify_trace i input output ps ++ t2.
Proof.
  intros H. destruct (verify_loop_run n i input output errors w)
    as [ps [w1 [Hrun Hlen]]].
  unfold bind in H. rewrite Hrun in H.
  destruct (k (tally errors ps) w1) as [[t2 r2] w2] eqn:Hk.
  injection H as <- <- <-. exists ps, w1, t2. auto.
Qed.

Lemma bind_poll_inv {B : Type} (fuel : nat) (k : unit -> M W B) (w : W)
  (t : list event) (r : res B) (w' : W) :
  bind (poll cfg host fuel) k w = (t, r, w') ->
  (exists n e, (n < fuel)%nat /\ r = Halt (Raised e)
             /\ t = waits cfg n ++ [EvThrown (AfuRead (MMIO_DONE cfg)) e])
  \/ (r = Halt Spinning /\ t = waits cfg fuel)
  \/ (exists n v w1 t2,
         (n < fuel)%nat /\ v <> 0 /\ k tt w1 = (t2, r, w')
         /\ t = (waits cfg n ++ [EvRead (MMIO_DONE cfg) v]) ++ t2).
Proof.
  intros H. apply bind_inv in H.
  destruct H as [[h [Hp ->]] | [t1 [[] [w1 [t2 [Hp [Hk ->]]]]]]];
    apply poll_run in Hp; destruct Hp as [n [Hle Hcases]];
    destruct Hcases as [[Hr [Hlt [v [Hv Ht]]]]
                       | [[Hlt [e [Hr Ht]]] | [Hr [Hn Ht]]]];
    try discriminate.
  - injection Hr as ->. left. exists n, e. auto.
  - injection Hr as ->. subst n. right. left. auto.
  - subst t1. right. right. exists n, v, w1, t2. auto.
Qed.

(** ** Kinds of the events of each loop *)

Lemma fill_trace_kind (i input output : Z) (vs : list Z) :
  forallb (kind cfg Fill) (fill_trace cfg i input output vs) = true.
Proof.
  revert i. induction vs as [|v vs IH]; intros i; [reflexivity|].
  cbn [fill_trace forallb kind andb]. apply IH.
Qed.

Lemma verify_trace_kind (i input output : Z) (ps : list (Z * Z)) :
  forallb (kind cfg Compare) (verify_trace i input output ps) = true.
Proof.
  revert i. induction ps as [|[o x] ps IH]; intros i; [reflexivity|].
  cbn [verify_trace forallb kind andb]. apply IH.
Qed.

Lemma waits_kind (k : nat) :
  forallb (kind cfg Polling) (waits cfg k) = true.
Proof.
  induction k as [|k IH]; [reflexivity|].
  cbn [waits]. rewrite forallb_app, IH, andb_true_r.
  unfold wait_step. destruct (SLEEP_WHILE_WAITING cfg);
    cbn [forallb kind]; rewrite Z.eqb_refl; reflexivity.
Qed.


Lemma bind_when_cout_inv {B : Type} (c : bool) (s : string)
  (k : unit -> M W B) (w : W) (t : list event) (r : res B) (w' : W) :
  bind (if c then cout s else ret tt) k w = (t, r, w') ->
  exists t2,
    k tt w = (t2, r, w') /\ t = (if c then [EvOut s] else []) ++ t2.
Proof.
  destruct c.
  - intros H. apply bind_cout_inv in H. exact H.
  - unfold bind, ret. destruct (k tt w) as [[t2 r2] w2]. intros H.
    injection H as <- <- <-. exists t2. auto.
Qed.






(** ** The anatomy of one test

    Whatever the world does, the trace of a test is the concatenation of
    seven blocks, one per phase and in program order; a block holds only
    events of its phase, and a phase has run to its end before any later
    phase leaves an event. *)



(** A test that ran to its end left exactly [full_trace]. *)
Lemma test_body_done (fuel : nat) (test : Z) (w : W) (t : list event)
  (w' : W) :
  test_body cfg host fuel test w = (t, Done tt, w') ->
  exists input output vs cls k v ps resets,
    t = full_trace cfg test input output vs cls k v ps resets
    /\ List.length vs = N.to_nat (DATA_AMOUNT cfg)
    /\ num_cls cfg = Some cls
    /\ (k < fuel)%nat /\ v <> 0
    /\ List.length ps = N.to_nat (DATA_AMOUNT cfg).
Proof.
  unfold test_body, malloc, write, read, free. intros H.
  apply bind_call_inv in H.
  destruct H as [[e [_ Hr]] | [input [w1 [t1 [H ->]]]]]; [discriminate|].
  apply bind_call_inv in H.
  destruct H as [[e [_ Hr]] | [output [w2 [t2 [H ->]]]]]; [discriminate|].
  apply bind_cout_inv in H. destruct H as [t3 [H ->]].
  apply bind_cout_inv in H. destruct H as [t4 [H ->]].
  apply bind_cout_inv in H. destruct H as [t5 [H ->]].
  apply bind_fill_inv in H. destruct H as [vs [w3 [t6 [Hvs [H ->]]]]].
  apply bind_call_inv in H.
  destruct H as [[e [_ Hr]] | [[] [w4 [t7 [H ->]]]]]; [discriminate|].
  apply bind_call_inv in H.
  destruct H as [[e [_ Hr]] | [[] [w5 [t8 [H ->]]]]]; [discriminate|].
  destruct (num_cls cfg) as [cls|] eqn:Hcls.
  2:{ unfold bind at 1, stop in H. discriminate. }
  apply bind_inv in H.
  destruct H as [[h [Hc _]] | [t9 [c [w6 [t10 [Hc [H ->]]]]]]];
    [discriminate|].
  injection Hc as <- <- <-. cbn [app].
  apply bind_call_inv in H.
  destruct H as [[e [_ Hr]] | [[] [w7 [t11 [H ->]]]]]; [discriminate|].
  apply bind_call_inv in H.
  destruct H as [[e [_ Hr]] | [[] [w8 [t12 [H ->]]]]]; [discriminate|].
  apply bind_poll_inv in H.
  destruct H as [[k [e [_ [Hr _]]]]
                | [[Hr _] | [k [v [w9 [t13 [Hk [Hv [H ->]]]]]]]]];
    [discriminate | discriminate |].
  apply bind_verify_inv in H. destruct H as [ps [w10 [t14 [Hps [H ->]]]]].
  apply bind_cout_inv in H. destruct H as [t15 [H ->]].
  apply bind_call_inv in H.
  destruct H as [[e [_ Hr]] | [resets [w11 [t16 [H ->]]]]]; [discriminate|].
  apply bind_cout_inv in H. destruct H as [t17 [H ->]].
  apply bind_when_cout_inv in H. destruct H as [t18 [H ->]].
  apply bind_cout_inv in H. destruct H as [t19 [H ->]].
  apply bind_call_inv in H.
  destruct H as [[e [_ Hr]] | [[] [w12 [t20 [H ->]]]]]; [discriminate|].
  apply call_inv in H.
  destruct H as [[e [_ Hr]] | [[] [-> _]]]; [discriminate|].
  exists input, output, vs, cls, k, v, ps, resets.
  repeat split; auto.
  unfold full_trace. cbn [app]. rewrite <- ?app_assoc. reflexivity.
Qed.

(** ** The budget of the polling loop

    A run that did not stop for lack of budget is the same under any
    larger budget. *)
Lemma poll_fuel_mono (fuel fuel' : nat) (w : W) (t : list event)
  (r : res unit) (w' : W) :
  poll cfg host fuel w = (t, r, w') -> r <> Halt Spinning ->
  (fuel <= fuel')%nat ->
  poll cfg host fuel' w = (t, r, w').
Proof.
  revert fuel' w t r w'. induction fuel as [|fuel IH];
    intros fuel' w t r w' H Hr Hle.
  - injection H as <- <- <-. congruence.
  - destruct fuel' as [|fuel']; [lia|].
    simpl poll in *. unfold bind at 1 in H. unfold bind at 1.
    destruct (read host (MMIO_DONE cfg) w) as [[t1 [v|h]] w1]; [|exact H].
    destruct (v =? 0); [|exact H].
    destruct ((if SLEEP_WHILE_WAITING cfg
               then sleep host (SLEEP_MS cfg) else ret tt) w1)
      as [[t2 [[]|h]] w2] eqn:Hs.
    + unfold bind at 1 in H. unfold bind at 1. rewrite Hs in *.
      destruct (poll cfg host fuel w2) as [[t3 r3] w3] eqn:Hp.
      rewrite (IH fuel' w2 t3 r3 w3 Hp); [exact H | | lia].
      injection H as _ <- _.
      destruct (poll cfg host fuel w2) as [[t4 r4] w4] eqn:Hp'.
      congruence.
    + unfold bind at 1 in H. unfold bind at 1. rewrite Hs in *. exact H.
Qed.

Lemma bind_stable {A B : Type} (m : M W A) (k k' : A -> M W B) (w : W)
  (t : list event) (r : res B) (w' : W) :
  (forall a w1 t2 w2, k a w1 = (t2, r, w2) -> k' a w1 = (t2, r, w2)) ->
  bind m k w = (t, r, w') -> bind m k' w = (t, r, w').
Proof.
  intros Hk. unfold bind. destruct (m w) as [[t1 [a|h]] w1]; [|auto].
  destruct (k a w1) as [[t2 r2] w2] eqn:Hka. intros H.
  injection H as <- <- <-. rewrite (Hk _ _ _ _ Hka). reflexivity.
Qed.

Lemma test_body_fuel_mono (fuel fuel' : nat) (test : Z) (w : W)
  (t : list event) (r : res unit) (w' : W) :
  test_body cfg host fuel test w = (t, r, w') -> r <> Halt Spinning ->
  (fuel <= fuel')%nat ->
  test_body cfg host fuel' test w = (t, r, w').
Proof.
  intros H Hr Hle. revert H. unfold test_body.
  do 11 (apply bind_stable; intros ? ? ? ?).
  unfold bind.
  lazymatch goal with
  | |- context [poll cfg host fuel ?w0] =>
      destruct (poll cfg host fuel w0) as [[tp rp] wp] eqn:Hp
  end.
  intros H.
  assert (Hrp : rp <> Halt Spinning).
  { destruct rp as [[]|h]; [discriminate|]. injection H as _ <- _.
    exact Hr. }
  rewrite (poll_fuel_mono fuel fuel' _ _ _ _ Hp Hrp Hle). exact H.
Qed.

(** ** From one test to the program *)

Lemma main_inv (fuel : nat) (w : W) (t : list event) (o : outcome)
  (w' : W) :
  main cfg host fuel w = (t, o, w') ->
  (exists e,
      t = EvThrown (AfuNew (AFU_ACCEL_UUID cfg)) e
            :: fst (conclusion cfg host (Halt (Raised e)))
      /\ o = snd (conclusion cfg host (Halt (Raised e))))
  \/ (exists w1 tb r,
         test_body cfg host fuel 0 w1 = (tb, r, w')
         /\ t = EvNew (AFU_ACCEL_UUID cfg) :: tb
                  ++ fst (conclusion cfg host r)
         /\ o = snd (conclusion cfg host r)).
Proof.
  unfold main, try_block, new_afu.
  destruct (bind _ _ w) as [[t0 r0] w0] eqn:H. intros Hm.
  injection Hm as <- <- <-.
  apply bind_call_inv in H.
  destruct H as [[e [-> ->]] | [[] [w1 [t1 [H ->]]]]].
  - left. exists e. auto.
  - right. cbn [test_loop NUM_TESTS] in H. apply bind_inv in H.
    destruct H as [[h [Hb ->]] | [tb [[] [w2 [t2 [Hb [Hr ->]]]]]]].
    + exists w1, t1, (Halt h). auto.
    + injection Hr as <- <- <-. exists w1, tb, (Done tt).
      rewrite app_nil_r. auto.
Qed.

Lemma main_fuel_mono (fuel fuel' : nat) (w : W) (t : list event)
  (o : outcome) (w' : W) :
  main cfg host fuel w = (t, o, w') -> o <> StillPolling ->
  (fuel <= fuel')%nat ->
  main cfg host fuel' w = (t, o, w').
Proof.
  unfold main, try_block. intros H Ho Hle.
  destruct (bind _ _ w) as [[t0 r0] w0] eqn:Hb.
  injection H as <- <- <-.
  assert (Hr0 : r0 <> Halt Spinning).
  { intros ->. apply Ho. reflexivity. }
  revert Hb. intros Hb.
  assert (Hb' : bind (new_afu host (AFU_ACCEL_UUID cfg))
                  (fun _ => test_loop cfg host fuel' NUM_TESTS 0) w
                = (t0, r0, w0)).
  { revert Hb. apply bind_stable. intros [] w1 t2 w2.
    cbn [test_loop NUM_TESTS]. intros H. apply bind_inv in H.
    unfold bind.
    destruct H as [[h [Hb Hh]] | [tb [[] [w3 [t3 [Hb [Hr ->]]]]]]].
    - rewrite (test_body_fuel_mono fuel fuel' _ _ _ _ _ Hb); subst; auto.
    - rewrite (test_body_fuel_mono fuel fuel' _ _ _ _ _ Hb);
        [ | discriminate | exact Hle ].
      rewrite Hr. reflexivity. }
  rewrite Hb'. reflexivity.
Qed.

(** ** Exceptions end the [try] block *)

Lemma no_throw_app (l1 l2 : list event) :
  no_throw (l1 ++ l2) = no_throw l1 && no_throw l2.
Proof. apply forallb_app. Qed.

Lemma no_throw_not_in (l : list event) (c : afu_call) (e : exn) :
  no_throw l = true -> ~ In (EvThrown c e) l.
Proof.
  unfold no_throw. rewrite forallb_forall. intros H Hin.
  specialize (H _ Hin). discriminate.
Qed.

Lemma throws_last_bind {A B : Type} (m : M W A) (k : A -> M W B) :
  (forall w, throws_last (m w)) ->
  (forall a w, throws_last (k a w)) ->
  forall w, throws_last (bind m k w).
Proof.
  intros Hm Hk w. unfold bind. specialize (Hm w).
  destruct (m w) as [[t1 [a|h]] w1]; [|exact Hm].
  specialize (Hk a w1). destruct (k a w1) as [[t2 [b|[e| |]]] w2];
    cbn [throws_last] in *.
  - rewrite no_throw_app, Hm, Hk. reflexivity.
  - destruct Hk as [pre [c [-> Hpre]]]. exists (t1 ++ pre), c.
    rewrite no_throw_app, Hm, Hpre, app_assoc. auto.
  - rewrite no_throw_app, Hm, Hk. reflexivity.
  - rewrite no_throw_app, Hm, Hk. reflexivity.
Qed.

Lemma throws_last_call {A : Type} (c : afu_call) (ev : A -> event)
  (op : W -> (exn + A) * W) :
  (forall a, is_thrown (ev a) = false) ->
  forall w, throws_last (call c ev op w).
Proof.
  intros Hev w. unfold call. destruct (op w) as [[e|a] w1];
    cbn [throws_last].
  - exists [], c. auto.
  - unfold no_throw. cbn [forallb]. rewrite Hev. reflexivity.
Qed.

Ltac throws_last_step :=
  lazymatch goal with
  | |- throws_last (bind _ _ ?w) =>
      revert w; apply throws_last_bind; [intros w | intros ? w]
  end.

Lemma throws_last_fill (n : nat) (i input output : Z) (w : W) :
  throws_last (fill_loop cfg host n i input output w).
Proof.
  revert i w. induction n as [|n IH]; intros i w; [reflexivity|].
  cbn [fill_loop]. repeat throws_last_step; try apply IH.
  - unfold rand. destruct (c_rand host w). reflexivity.
  - reflexivity.
  - reflexivity.
Qed.

Lemma throws_last_verify (n : nat) (i input output errors : Z) (w : W) :
  throws_last (verify_loop host n i input output errors w).
Proof.
  revert i errors w. induction n as [|n IH]; intros i errors w;
    [reflexivity|].
  cbn [verify_loop]. repeat throws_last_step; try apply IH; unfold load; destruct (mem_load host _ _ w); reflexivity.
Qed.

Lemma throws_last_poll (fuel : nat) (w : W) :
  throws_last (poll cfg host fuel w).
Proof.
  revert w. induction fuel as [|fuel IH]; intros w; [reflexivity|].
  cbn [poll]. revert w. apply throws_last_bind.
  - apply throws_last_call. reflexivity.
  - intros v w. destruct (v =? 0); [|reflexivity].
    revert w. apply throws_last_bind; [|intros _; apply IH].
    intros w. destruct (SLEEP_WHILE_WAITING cfg); reflexivity.
Qed.

Lemma throws_last_test_body (fuel : nat) (test : Z) (w : W) :
  throws_last (test_body cfg host fuel test w).
Proof.
  unfold test_body, malloc, write, read, free.
  repeat throws_last_step;
    try (apply throws_last_call; reflexivity);
    try reflexivity;
    try apply throws_last_fill; try apply throws_last_poll;
    try apply throws_last_verify.
  - destruct (num_cls cfg); reflexivity.
  - destruct (0 <? _); reflexivity.
Qed.

Lemma throws_last_try_block (fuel : nat) (w : W) :
  throws_last (try_block cfg host fuel w).
Proof.
  unfold try_block, new_afu. revert w. apply throws_last_bind.
  - apply throws_last_call. reflexivity.
  - intros _ w. cbn [test_loop NUM_TESTS]. revert w.
    apply throws_last_bind.
    + apply throws_last_test_body.
    + reflexivity.
Qed.

(** ** Error handling *)

(** C6: an exception thrown by a wrapper call is the last thing the
    [try] block does.  [main] then prints to [cerr] the busy message for
    [FPGA_BUSY], the not-found message with the accelerator UUID for
    [FPGA_NOT_FOUND], ["ERROR: "] and [fpgaErrStr] for any other
    [fpga_result], [what()] for a [runtime_error], the no-driver message
    for [no_driver], and returns [EXIT_FAILURE].  An exception of another
    type leaves [main] uncaught. *)
Theorem exceptions_caught_and_reported (fuel : nat) (w : W)
  (t : list event) (o : outcome) (w' : W) (c : afu_call) (e : exn) :
  main cfg host fuel w = (t, o, w') ->
  In (EvThrown c e) t ->
  exists pre tl,
    t = pre ++ EvThrown c e :: tl
    /\ no_throw pre = true
    /\ match e with
       | ExFpgaResult FPGA_BUSY =>
           tl = [EvErr ("ERROR: All FPGAs busy." ++ endl)]
           /\ o = Exit EXIT_FAILURE
       | ExFpgaResult FPGA_NOT_FOUND =>
           tl = [EvErr ("ERROR: FPGA with accelerator "
                        ++ AFU_ACCEL_UUID cfg ++ " not found." ++ endl)]
           /\ o = Exit EXIT_FAILURE
       | ExFpgaResult r =>
           tl = [EvErr ("ERROR: " ++ fpgaErrStr host r ++ endl)]
           /\ o = Exit EXIT_FAILURE
       | ExRuntimeError what =>
           tl = [EvErr (what ++ endl)] /\ o = Exit EXIT_FAILURE
       | ExNoDriver =>
           tl = [EvErr ("ERROR: No FPGA driver found." ++ endl)]
           /\ o = Exit EXIT_FAILURE
       | ExOther => tl = [] /\ o = Uncaught ExOther
       end.
Proof.
  unfold main. intros H Hin.
  pose proof (throws_last_try_block fuel w) as Hlast.
  destruct (try_block cfg host fuel w) as [[t0 r0] w0].
  injection H as <- <- <-.
  assert (Hnone : forall l, no_throw l = true ->
                            ~ In (EvThrown c e) (l ++ [])).
  { intros l Hl. rewrite app_nil_r. apply no_throw_not_in. exact Hl. }
  destruct r0 as [[]|[e0| |]]; cbn [throws_last conclusion fst snd] in *;
    try (exfalso; exact (Hnone _ Hlast Hin)).
  destruct Hlast as [pre [c0 [-> Hpre]]].
  assert (Heq : EvThrown c e = EvThrown c0 e0).
  { rewrite <- app_assoc in Hin. apply in_app_or in Hin.
    destruct Hin as [Hin | Hin].
    - exfalso. exact (no_throw_not_in _ _ _ Hpre Hin).
    - cbn [app] in Hin. destruct Hin as [Hin | Hin]; [auto|].
      exfalso. destruct (handler cfg host e0); cbn [fst] in Hin.
      + destruct Hin as [Hin | []]. discriminate.
      + destruct Hin. }
  injection Heq as <- <-.
  exists pre, (fst (match handler cfg host e with
                    | Some msg => ([EvErr msg], Exit EXIT_FAILURE)
                    | None => ([], Uncaught e)
                    end)).
  split; [rewrite <- app_assoc; reflexivity|].
  split; [exact Hpre|].
  destruct e as [r | what | | ]; [destruct r | | | ]; cbn; auto.
Qed.

(** ** Runs that return [EXIT_SUCCESS] *)

Ltac list_norm :=
  repeat first [ rewrite <- app_assoc | progress cbn [app] ].


Lemma conclusion_success (r : res unit) :
  snd (conclusion cfg host r) = Exit EXIT_SUCCESS -> r = Done tt.
Proof.
  destruct r as [[]|[e| |]]; cbn [conclusion snd]; try discriminate; auto.
  destruct (handler cfg host e); discriminate.
Qed.

Lemma conclusion_after_throw (e : exn) :
  snd (conclusion cfg host (Halt (Raised e))) <> Exit EXIT_SUCCESS.
Proof.
  intros H. apply conclusion_success in H. discriminate.
Qed.

Lemma main_done (fuel : nat) (w : W) (t : list event) (w' : W) :
  main cfg host fuel w = (t, Exit EXIT_SUCCESS, w') ->
  exists input output vs cls k v ps resets,
    t = EvNew (AFU_ACCEL_UUID cfg)
          :: full_trace cfg 0 input output vs cls k v ps resets
    /\ List.length vs = N.to_nat (DATA_AMOUNT cfg)
    /\ num_cls cfg = Some cls
    /\ (k < fuel)%nat /\ v <> 0
    /\ List.length ps = N.to_nat (DATA_AMOUNT cfg).
Proof.
  intros H. apply main_inv in H.
  destruct H as [[e [_ Ho]] | [w1 [tb [r [Hb [-> Ho]]]]]].
  - exfalso. exact (conclusion_after_throw e (eq_sym Ho)).
  - symmetry in Ho. apply conclusion_success in Ho. subst r.
    apply test_body_done in Hb.
    destruct Hb as [input [output [vs [cls [k [v [ps [resets [-> Hrest]]]]]]]]].
    exists input, output, vs, cls, k, v, ps, resets.
    cbn [conclusion fst]. rewrite app_nil_r. auto.
Qed.

(** ** Order of the phases *)


(** ** Lifetime of the buffers *)

Lemma forallb_kind_impl (p : phase) (f : event -> bool) (l : list event) :
  (forall e, kind cfg p e = true -> f e = true) ->
  forallb (kind cfg p) l = true -> forallb f l = true.
Proof.
  intros Himp. rewrite !forallb_forall. auto.
Qed.

(** C7: a test that runs to its end starts with two allocations of
    [DATA_AMOUNT] elements, ends with the release of those two buffers,
    and makes no other allocation or release in between. *)
Theorem buffers_allocated_then_freed (fuel : nat) (test : Z) (w : W)
  (t : list event) (w' : W) :
  test_body cfg host fuel test w = (t, Done tt, w') ->
  exists input output mid,
    t = EvMalloc (DATA_AMOUNT cfg) input
          :: EvMalloc (DATA_AMOUNT cfg) output
          :: mid ++ [EvFree input; EvFree output]
    /\ forallb (fun e => negb (buffer_call e)) mid = true.
Proof.
  intros H. apply test_body_done in H.
  destruct H as [input [output [vs [cls [k [v [ps [resets [-> _]]]]]]]]].
  exists input, output,
    ([EvOut (hex_of_pointer input ++ endl);
      EvOut (hex_of_pointer output ++ endl); EvOut (test_line test)]
     ++ fill_trace cfg 0 input output vs
     ++ [EvWrite (MMIO_RD_ADDR cfg) input; EvWrite (MMIO_WR_ADDR cfg) output;
         EvWrite (MMIO_SIZE cfg) cls; EvWrite (MMIO_GO cfg) 1]
     ++ (waits cfg k ++ [EvRead (MMIO_DONE cfg) v])
     ++ verify_trace 0 input output ps
     ++ [EvOut "# of resets: "; EvRead RESETS_OFFSET resets;
         EvOut (to_hex resets ++ endl)]
     ++ (if 0 <? tally 0 ps then [EvOut (failure_line (tally 0 ps))] else [])
     ++ [EvOut success_line]).
  split.
  - unfold full_trace. list_norm. reflexivity.
  - rewrite !forallb_app. repeat (apply andb_true_intro; split);
      try reflexivity.
    + apply (forallb_kind_impl Fill); [|apply fill_trace_kind].
      intros [] He; try discriminate; reflexivity.
    + apply (forallb_kind_impl Polling); [|apply waits_kind].
      intros [] He; try discriminate; try reflexivity.
      destruct c; try discriminate; reflexivity.
    + apply (forallb_kind_impl Compare); [|apply verify_trace_kind].
      intros [] He; try discriminate; reflexivity.
    + destruct (0 <? tally 0 ps); reflexivity.
Qed.

(** ** The exit code *)

(** C9, with the conditions it needs: a run in which no call throws, in
    which the conversion of [num_cls] is defined and whose polling loop has
    ended, returns [EXIT_SUCCESS].  Its trace is
    the constructor followed by [full_trace]: the line "DMA Test
    Successful!!!" is printed once, just before the buffers are freed, also
    when the counter of mismatches is positive; in that case the FAILURE
    line is printed as well, and nothing else changes.  The result is the
    same for every larger budget of polls. *)
Theorem success_when_nothing_throws (fuel : nat) (w : W) (t : list event)
  (o : outcome) (w' : W) :
  main cfg host fuel w = (t, o, w') ->
  no_throw t = true ->
  o <> StillPolling -> o <> UndefinedBehaviour ->
  o = Exit EXIT_SUCCESS
  /\ (exists input output vs cls k v ps resets,
         t = EvNew (AFU_ACCEL_UUID cfg)
               :: full_trace cfg 0 input output vs cls k v ps resets
         /\ (exists pre,
                t = pre
                      ++ (if 0 <? tally 0 ps
                          then [EvOut (failure_line (tally 0 ps))] else [])
                      ++ [EvOut success_line; EvFree input; EvFree output]))
  /\ (forall fuel', (fuel <= fuel')%nat ->
                    main cfg host fuel' w = (t, Exit EXIT_SUCCESS, w')).
Proof.
  intros H Hnt Hsp Hub.
  assert (Ho : o = Exit EXIT_SUCCESS).
  { pose proof H as Hinv. apply main_inv in Hinv.
    destruct Hinv as [[e [-> _]] | [w1 [tb [r [Hb [-> ->]]]]]].
    - discriminate.
    - pose proof (throws_last_test_body fuel 0 w1) as Hlast.
      rewrite Hb in Hlast.
      destruct r as [[]|[e| |]]; cbn [throws_last conclusion snd] in *;
        try congruence.
      destruct Hlast as [pre [c [-> _]]]. exfalso.
      apply (no_throw_not_in _ c e Hnt). right.
      rewrite <- !app_assoc. apply in_or_app. right. left. reflexivity. }
  subst o. split; [reflexivity|]. split.
  - apply main_done in H.
    destruct H as [input [output [vs [cls [k [v [ps [resets [-> _]]]]]]]]].
    exists input, output, vs, cls, k, v, ps, resets.
    split; [reflexivity|].
    exists (EvNew (AFU_ACCEL_UUID cfg)
              :: [EvMalloc (DATA_AMOUNT cfg) input;
                  EvMalloc (DATA_AMOUNT cfg) output;
                  EvOut (hex_of_pointer input ++ endl);
                  EvOut (hex_of_pointer output ++ endl);
                  EvOut (test_line 0)]
              ++ fill_trace cfg 0 input output vs
              ++ [EvWrite (MMIO_RD_ADDR cfg) input;
                  EvWrite (MMIO_WR_ADDR cfg) output;
                  EvWrite (MMIO_SIZE cfg) cls; EvWrite (MMIO_GO cfg) 1]
              ++ (waits cfg k ++ [EvRead (MMIO_DONE cfg) v])
              ++ verify_trace 0 input output ps
              ++ [EvOut "# of resets: "; EvRead RESETS_OFFSET resets;
                  EvOut (to_hex resets ++ endl)]).
    unfold full_trace. list_norm. reflexivity.
  - intros fuel' Hle. apply (main_fuel_mono fuel fuel'); auto.
Qed.

(** ** The comparison *)


(** ** Initialisation before the transfer *)





(** ** The polling loop *)






(** ** Register writes *)

Lemma filter_kind_nil (p : phase) (f : event -> bool) (l : list event) :
  (forall e, kind cfg p e = true -> f e = false) ->
  forallb (kind cfg p) l = true -> filter f l = [].
Proof.
  intros Himp. induction l as [|a l IH]; [reflexivity|].
  cbn [forallb filter]. intros H. apply andb_prop in H.
  destruct H as [Ha Hl]. rewrite (Himp a Ha). auto.
Qed.

(** The register writes of a test that ran to its end. *)
Lemma full_trace_writes (test input output : Z) (vs : list Z) (cls : Z)
  (k : nat) (v : Z) (ps : list (Z * Z)) (resets : Z) :
  filter is_write (full_trace cfg test input output vs cls k v ps resets)
  = [EvWrite (MMIO_RD_ADDR cfg) input; EvWrite (MMIO_WR_ADDR cfg) output;
     EvWrite (MMIO_SIZE cfg) cls; EvWrite (MMIO_GO cfg) 1].
Proof.
  unfold full_trace. rewrite !filter_app.
  rewrite (filter_kind_nil Fill is_write
             (fill_trace cfg 0 input output vs));
    [ | intros [] He; try discriminate; reflexivity
      | apply fill_trace_kind ].
  rewrite (filter_kind_nil Polling is_write (waits cfg k));
    [ | intros [] He; try discriminate; reflexivity
      | apply waits_kind ].
  rewrite (filter_kind_nil Compare is_write
             (verify_trace 0 input output ps));
    [ | intros [] He; try discriminate; reflexivity
      | apply verify_trace_kind ].
  destruct (0 <? tally 0 ps); reflexivity.
Qed.

Lemma main_writes (fuel : nat) (w : W) (t : list event) (w' : W) :
  main cfg host fuel w = (t, Exit EXIT_SUCCESS, w') ->
  exists input output cls,
    num_cls cfg = Some cls
    /\ filter is_write t
       = [EvWrite (MMIO_RD_ADDR cfg) input; EvWrite (MMIO_WR_ADDR cfg) output;
          EvWrite (MMIO_SIZE cfg) cls; EvWrite (MMIO_GO cfg) 1].
Proof.
  intros H. apply main_done in H.
  destruct H as [input [output [vs [cls [k [v [ps [resets
                  [-> [_ [Hcls _]]]]]]]]]]].
  exists input, output, cls. split; [exact Hcls|].
  cbn [filter is_write]. apply full_trace_writes.
Qed.

End Runs.

(** ** The number of cache lines *)

Lemma div_cross (x y b d : Z) :
  0 < b -> 0 < d -> x * b = y * d -> x / d = y / b.
Proof.
  intros Hb Hd Heq.
  rewrite <- (Z.div_mul_cancel_r x d b) by lia.
  rewrite Heq, (Z.mul_comm d b).
  rewrite Z.div_mul_cancel_r by lia. reflexivity.
Qed.

Lemma ceil_div_bounds (a b : Z) :
  0 <= a -> 0 < b -> 0 <= ceil_div a b <= a.
Proof.
  intros Ha Hb. unfold ceil_div.
  assert (H1 : (- a) / b <= 0) by (apply Z.div_le_upper_bound; lia).
  assert (H2 : - a <= (- a) / b) by (apply Z.div_le_lower_bound; nia).
  lia.
Qed.

(** [float_ceil] of a float that denotes [a / b] is the exact ceiling. *)
Lemma float_ceil_exact (x : spec_float) (q : Q) (a b : Z) :
  0 < b ->
  float_value x = Some q -> (q == a # Z.to_pos b)%Q ->
  float_ceil x = Some (ceil_div a b).
Proof.
  intros Hb Hval Hq. unfold ceil_div.
  destruct x as [s | s | | s m e]; try discriminate.
  - injection Hval as <-. unfold Qeq in Hq. cbn [Qnum Qden] in Hq.
    assert (a = 0) by lia. subst a. reflexivity.
  - cbn [float_value float_ceil] in *. injection Hval as <-.
    set (n := if s then Z.neg m else Z.pos m) in *.
    destruct (0 <=? e) eqn:He.
    + unfold Qeq in Hq. cbn [Qnum Qden inject_Z] in Hq.
      rewrite Z2Pos.id in Hq by lia.
      f_equal. replace (- a) with ((- (n * 2 ^ e)) * b) by lia.
      rewrite Z.div_mul by lia. lia.
    + apply Z.leb_gt in He.
      unfold Qeq in Hq. cbn [Qnum Qden] in Hq.
      rewrite Z2Pos.id in Hq by lia.
      rewrite Pos2Z.inj_pow, Z2Pos.id in Hq by lia.
      assert (Hd : 0 < 2 ^ (- e)) by (apply Z.pow_pos_nonneg; lia).
      f_equal. f_equal. apply div_cross; lia.
Qed.

(** C8, as the code has it: [total_bytes] is an [unsigned], so the byte
    count is taken modulo 2^32 before the division.  When
    [DATA_AMOUNT * sizeof(dma_data_t)] fits in an [unsigned],
    [AFU::CL_BYTES] is positive and the single-precision quotient is
    exact (it denotes the rational byte count over [CL_BYTES]), [num_cls]
    is the exact ceiling of that quotient, and it is the value a run that
    returns [EXIT_SUCCESS] has written to [MMIO_SIZE]. *)
Theorem num_cls_exact_without_rounding {W : Type} (cfg : config)
  (host : Host W) :
  0 < CL_BYTES cfg ->
  0 <= Z.of_N (DATA_AMOUNT cfg) * dma_bytes cfg < 2 ^ 32 ->
  (exists q,
      float_value (float_div (float_of_unsigned (total_bytes cfg))
                             (float_of_unsigned (CL_BYTES cfg))) = Some q
      /\ (q == Z.of_N (DATA_AMOUNT cfg) * dma_bytes cfg
                # Z.to_pos (CL_BYTES cfg))%Q) ->
  num_cls cfg
  = Some (ceil_div (Z.of_N (DATA_AMOUNT cfg) * dma_bytes cfg) (CL_BYTES cfg))
  /\ forall fuel w t w',
       main cfg host fuel w = (t, Exit EXIT_SUCCESS, w') ->
       exists input output,
         filter is_write t
         = [EvWrite (MMIO_RD_ADDR cfg) input;
            EvWrite (MMIO_WR_ADDR cfg) output;
            EvWrite (MMIO_SIZE cfg)
              (ceil_div (Z.of_N (DATA_AMOUNT cfg) * dma_bytes cfg)
                 (CL_BYTES cfg));
            EvWrite (MMIO_GO cfg) 1].
Proof.
  intros Hcl Hrange [q [Hval Hq]].
  assert (Hcls : num_cls cfg
                 = Some (ceil_div (Z.of_N (DATA_AMOUNT cfg) * dma_bytes cfg)
                           (CL_BYTES cfg))).
  { unfold num_cls. rewrite (float_ceil_exact _ q _ _ Hcl Hval Hq).
    unfold unsigned_of_integral.
    pose proof (ceil_div_bounds _ _ (proj1 Hrange) Hcl) as Hb.
    replace (0 <=? _) with true by (symmetry; apply Z.leb_le; lia).
    replace (_ <? 2 ^ 32) with true by (symmetry; apply Z.ltb_lt; lia).
    reflexivity. }
  split; [exact Hcls|].
  intros fuel w t w' Hrun. apply main_writes in Hrun.
  destruct Hrun as [input [output [cls [Hsome Hw]]]].
  rewrite Hcls in Hsome. injection Hsome as <-.
  exists input, output. exact Hw.
Qed.

(** * Runs on the simulated platform *)

(** C1: on a platform that reports completion without moving the data,
    the comparison finds four mismatches and [main] prints the FAILURE
    line, then prints "DMA Test Successful!!!", frees the buffers and
    returns [EXIT_SUCCESS], which is 0.  No call has thrown. *)
Theorem mismatch_exits_with_success :
  exists pre,
    fst idle_run
    = (pre ++ [EvOut (failure_line 4); EvOut success_line;
               EvFree 65536; EvFree 65600],
       Exit EXIT_SUCCESS)
    /\ no_throw pre = true
    /\ In (EvLoad 65600 0 0) pre
    /\ In (EvLoad 65536 0 1103527590) pre
    /\ EXIT_SUCCESS = 0.
Proof.
  exists (firstn 34 (fst (fst idle_run))).
  vm_compute. repeat split; auto 40.
Qed.

(** C5, counterexample: the run on the simulated platform reads offset
    0x0060, which is none of the five offsets the settings name. *)
Lemma resets_offset_is_read_too :
  Exists (accessed RESETS_OFFSET) (fst (fst good_run))
  /\ ~ In RESETS_OFFSET (named_offsets Sim.cfg4).
Proof.
  split.
  - apply Exists_exists. exists (EvRead RESETS_OFFSET 0).
    split; [vm_compute; auto 60 | reflexivity].
  - vm_compute. intuition discriminate.
Qed.

(** C8, counterexample: with 2^30 elements of four bytes no float
    operation rounds ([total_bytes] is 0, and so are its float and the
    quotient), yet the value for [MMIO_SIZE] is 0 while the exact ceiling
    of 2^32 / 64 is 2^26. *)
Lemma num_cls_of_wrapped_byte_count :
  num_cls cfg_4GiB = Some 0
  /\ ceil_div (Z.of_N (DATA_AMOUNT cfg_4GiB) * dma_bytes cfg_4GiB)
       (CL_BYTES cfg_4GiB) = 67108864
  /\ total_bytes cfg_4GiB = 0
  /\ float_value (float_of_unsigned (total_bytes cfg_4GiB)) = Some 0%Q
  /\ float_value (float_div (float_of_unsigned (total_bytes cfg_4GiB))
                            (float_of_unsigned (CL_BYTES cfg_4GiB)))
     = Some 0%Q.
Proof. vm_compute. repeat split; reflexivity. Qed.

(** With 2^24 + 1 elements of one byte the conversion of [total_bytes]
    to [float] rounds to 2^24, and the value for [MMIO_SIZE] is one cache
    line short. *)
Example num_cls_of_rounded_byte_count :
  num_cls cfg_16MiB1 = Some 262144
  /\ ceil_div (Z.of_N (DATA_AMOUNT cfg_16MiB1) * dma_bytes cfg_16MiB1)
       (CL_BYTES cfg_16MiB1) = 262145.
Proof. vm_compute. split; reflexivity. Qed.

(** ** A platform that is never done *)

Lemma bind_done_then {W A B : Type} (m : M W A) (k : A -> M W B) (w : W)
  (t1 : list event) (a : A) (w1 : W) (t2 : list event) (r : res B)
  (w2 : W) :
  m w = (t1, Done a, w1) -> k a w1 = (t2, r, w2) ->
  bind m k w = (t1 ++ t2, r, w2).
Proof. intros Hm Hk. unfold bind. rewrite Hm, Hk. reflexivity. Qed.

Lemma bind_halt_now {W A B : Type} (m : M W A) (k : A -> M W B) (w : W)
  (t : list event) (h : halt) (w1 : W) :
  m w = (t, Halt h, w1) -> bind m k w = (t, Halt h, w1).
Proof. intros Hm. unfold bind. rewrite Hm. reflexivity. Qed.

(** On the platform whose registers read 0 the polling loop uses up any
    budget. *)
Lemma poll_never_done (cfg : config) (fuel : nat) (w : Sim.world) :
  poll cfg (plain_host 0) fuel w = (waits cfg fuel, Halt Spinning, w).
Proof.
  induction fuel as [|fuel IH]; [reflexivity|].
  cbn [poll waits]. unfold wait_step, bind, read, call, sleep, ret.
  cbn [plain_host afu_read sleep_for Z.eqb].
  destruct (SLEEP_WHILE_WAITING cfg); rewrite IH; reflexivity.
Qed.

Lemma no_throw_waits (cfg : config) (k : nat) : no_throw (waits cfg k) = true.
Proof.
  induction k as [|k IH]; [reflexivity|].
  cbn [waits]. unfold no_throw in *. rewrite forallb_app, IH.
  unfold wait_step. destruct (SLEEP_WHILE_WAITING cfg); reflexivity.
Qed.

Lemma never_done_for_every_budget (fuel : nat) :
  exists t w',
    main Sim.cfg4 (plain_host 0) fuel Sim.init = (t, StillPolling, w')
    /\ no_throw t = true.
Proof.
  assert (Hb : exists tb w',
             try_block Sim.cfg4 (plain_host 0) fuel Sim.init
             = (tb, Halt Spinning, w')
             /\ no_throw tb = true).
  { unfold try_block, test_loop, NUM_TESTS, test_body. do 2 eexists. split.
    - eapply bind_done_then; [vm_compute; reflexivity | cbv beta].
      eapply bind_halt_now.
      repeat (eapply bind_done_then; [vm_compute; reflexivity | cbv beta]).
      eapply bind_halt_now. apply poll_never_done.
    - rewrite !no_throw_app, no_throw_waits. reflexivity. }
  destruct Hb as [tb [w' [Hb Hnt]]]. exists (tb ++ []), w'.
  unfold main. rewrite Hb. split; [reflexivity|].
  rewrite app_nil_r. exact Hnt.
Qed.

(** C9, counterexample: on the platform whose completion register stays
    at 0 no call throws, and [main] does not return: with five polls, and
    with any other number of polls, it is still in the polling loop. *)
Lemma no_exception_and_no_return :
  no_throw (fst (fst stuck_run)) = true
  /\ snd (fst stuck_run) = StillPolling
  /\ (forall fuel, exists t w',
         main Sim.cfg4 (plain_host 0) fuel Sim.init = (t, StillPolling, w')
         /\ no_throw t = true).
Proof.
  split; [vm_compute; reflexivity|]. split; [vm_compute; reflexivity|].
  exact never_done_for_every_budget.
Qed.

(** ** The theorems at work *)

(** The run whose write of the write address throws [FPGA_BUSY]. *)
Lemma exceptions_caught_and_reported_witness :
  (main Sim.cfg4
     (Sim.host Sim.cfg4 (Sim.failing 4 (ExFpgaResult FPGA_BUSY))) 5 Sim.init
   = (fst (fst busy_run), snd (fst busy_run), snd busy_run)
   /\ In (EvThrown (AfuWrite 84 65600) (ExFpgaResult FPGA_BUSY))
        (fst (fst busy_run)))
  /\ exists pre tl,
       fst (fst busy_run)
       = pre ++ EvThrown (AfuWrite 84 65600) (ExFpgaResult FPGA_BUSY) :: tl
       /\ no_throw pre = true
       /\ tl = [EvErr ("ERROR: All FPGAs busy." ++ endl)]
       /\ snd (fst busy_run) = Exit EXIT_FAILURE.
Proof.
  assert (Hrun : main Sim.cfg4
                   (Sim.host Sim.cfg4 (Sim.failing 4 (ExFpgaResult FPGA_BUSY)))
                   5 Sim.init
                 = (fst (fst busy_run), snd (fst busy_run), snd busy_run))
    by (vm_compute; reflexivity).
  assert (Hin : In (EvThrown (AfuWrite 84 65600) (ExFpgaResult FPGA_BUSY))
                  (fst (fst busy_run)))
    by (vm_compute; auto 40).
  split; [split; [exact Hrun | exact Hin]|].
  exact (exceptions_caught_and_reported Sim.cfg4 _ 5 Sim.init _ _ _ _ _
           Hrun Hin).
Defined.


(** The two buffers of the test with the engine that copies. *)
Lemma buffers_allocated_then_freed_witness :
  test_body Sim.cfg4 (Sim.host Sim.cfg4 Sim.good) 5 0 Sim.init
  = (fst (fst good_test), Done tt, snd good_test)
  /\ exists input output mid,
       fst (fst good_test)
       = EvMalloc (DATA_AMOUNT Sim.cfg4) input
           :: EvMalloc (DATA_AMOUNT Sim.cfg4) output
           :: mid ++ [EvFree input; EvFree output]
       /\ forallb (fun e => negb (buffer_call e)) mid = true.
Proof.
  assert (Hrun : test_body Sim.cfg4 (Sim.host Sim.cfg4 Sim.good) 5 0 Sim.init
                 = (fst (fst good_test), Done tt, snd good_test))
    by (vm_compute; reflexivity).
  split; [exact Hrun|].
  exact (buffers_allocated_then_freed Sim.cfg4 _ 5 0 Sim.init _ _ Hrun).
Defined.

(** The run with four mismatches returns [EXIT_SUCCESS]. *)
Lemma success_when_nothing_throws_witness :
  (main Sim.cfg4 (Sim.host Sim.cfg4 Sim.idle) 5 Sim.init
   = (fst (fst idle_run), snd (fst idle_run), snd idle_run)
   /\ no_throw (fst (fst idle_run)) = true
   /\ snd (fst idle_run) <> StillPolling
   /\ snd (fst idle_run) <> UndefinedBehaviour)
  /\ snd (fst idle_run) = Exit EXIT_SUCCESS
  /\ (exists input output vs cls k v ps resets,
         fst (fst idle_run)
         = EvNew (AFU_ACCEL_UUID Sim.cfg4)
             :: full_trace Sim.cfg4 0 input output vs cls k v ps resets
         /\ (exists pre,
                fst (fst idle_run)
                = pre
                    ++ (if 0 <? tally 0 ps
                        then [EvOut (failure_line (tally 0 ps))] else [])
                    ++ [EvOut success_line; EvFree input; EvFree output]))
  /\ (forall fuel', (5 <= fuel')%nat ->
                    main Sim.cfg4 (Sim.host Sim.cfg4 Sim.idle) fuel' Sim.init
                    = (fst (fst idle_run), Exit EXIT_SUCCESS, snd idle_run)).
Proof.
  assert (Hrun : main Sim.cfg4 (Sim.host Sim.cfg4 Sim.idle) 5 Sim.init
                 = (fst (fst idle_run), snd (fst idle_run), snd idle_run))
    by (vm_compute; reflexivity).
  assert (Hnt : no_throw (fst (fst idle_run)) = true)
    by (vm_compute; reflexivity).
  assert (Hsp : snd (fst idle_run) <> StillPolling)
    by (vm_compute; discriminate).
  assert (Hub : snd (fst idle_run) <> UndefinedBehaviour)
    by (vm_compute; discriminate).
  split; [auto|].
  exact (success_when_nothing_throws Sim.cfg4 _ 5 Sim.init _ _ _
           Hrun Hnt Hsp Hub).
Defined.




(** Four elements of eight bytes: half a cache line, one line written. *)
Lemma num_cls_exact_without_rounding_witness :
  (0 < CL_BYTES Sim.cfg4
   /\ 0 <= Z.of_N (DATA_AMOUNT Sim.cfg4) * dma_bytes Sim.cfg4 < 2 ^ 32
   /\ exists q,
        float_value
          (float_div (float_of_unsigned (total_bytes Sim.cfg4))
                     (float_of_unsigned (CL_BYTES Sim.cfg4))) = Some q
        /\ (q == Z.of_N (DATA_AMOUNT Sim.cfg4) * dma_bytes Sim.cfg4
                  # Z.to_pos (CL_BYTES Sim.cfg4))%Q)
  /\ num_cls Sim.cfg4
     = Some (ceil_div (Z.of_N (DATA_AMOUNT Sim.cfg4) * dma_bytes Sim.cfg4)
               (CL_BYTES Sim.cfg4))
  /\ forall fuel w t w',
       main Sim.cfg4 (Sim.host Sim.cfg4 Sim.good) fuel w
       = (t, Exit EXIT_SUCCESS, w') ->
       exists input output,
         filter is_write t
         = [EvWrite (MMIO_RD_ADDR Sim.cfg4) input;
            EvWrite (MMIO_WR_ADDR Sim.cfg4) output;
            EvWrite (MMIO_SIZE Sim.cfg4)
              (ceil_div (Z.of_N (DATA_AMOUNT Sim.cfg4) * dma_bytes Sim.cfg4)
                 (CL_BYTES Sim.cfg4));
            EvWrite (MMIO_GO Sim.cfg4) 1].
Proof.
  assert (Hcl : 0 < CL_BYTES Sim.cfg4) by reflexivity.
  assert (Hrange : 0 <= Z.of_N (DATA_AMOUNT Sim.cfg4) * dma_bytes Sim.cfg4
                   < 2 ^ 32)
    by (vm_compute; split; [discriminate | reflexivity]).
  assert (Hq : exists q,
             float_value
               (float_div (float_of_unsigned (total_bytes Sim.cfg4))
                          (float_of_unsigned (CL_BYTES Sim.cfg4))) = Some q
             /\ (q == Z.of_N (DATA_AMOUNT Sim.cfg4) * dma_bytes Sim.cfg4
                       # Z.to_pos (CL_BYTES Sim.cfg4))%Q).
  { exists (8388608 # 16777216)%Q. split; vm_compute; reflexivity. }
  split; [auto|].
  exact (num_cls_exact_without_rounding Sim.cfg4
           (Sim.host Sim.cfg4 Sim.good) Hcl Hrange Hq).
Defined.

(** * Further properties of [main] *)

(** ** Single precision below 2^24 *)

Lemma digits2_pos_bounds (p : positive) :
  2 ^ (Z.pos (digits2_pos p) - 1) <= Z.pos p < 2 ^ Z.pos (digits2_pos p).
Proof.
  induction p as [p IH | p IH |]; cbn [digits2_pos].
  - rewrite Pos2Z.inj_succ.
    replace (Z.succ (Z.pos (digits2_pos p)) - 1)
      with (Z.succ (Z.pos (digits2_pos p) - 1)) by lia.
    rewrite !Z.pow_succ_r by lia. lia.
  - rewrite Pos2Z.inj_succ.
    replace (Z.succ (Z.pos (digits2_pos p)) - 1)
      with (Z.succ (Z.pos (digits2_pos p) - 1)) by lia.
    rewrite !Z.pow_succ_r by lia. lia.
  - cbn. lia.
Qed.

Lemma digits2_pos_unique (p : positive) (d : Z) :
  2 ^ (d - 1) <= Z.pos p < 2 ^ d -> Z.pos (digits2_pos p) = d.
Proof.
  intros [Hlo Hhi]. pose proof (digits2_pos_bounds p) as [Hlo' Hhi'].
  assert (Hd : 0 < d).
  { destruct (Z.ltb_spec 0 d); [assumption|].
    exfalso. destruct (Z.eq_dec d 0) as [-> | Hne].
    - cbn in Hhi. lia.
    - rewrite (Z.pow_neg_r 2 d) in Hhi by lia. lia. }
  destruct (Z.lt_trichotomy (Z.pos (digits2_pos p)) d) as [Hlt | [Heq | Hgt]];
    [ | exact Heq | ].
  - exfalso.
    assert (2 ^ Z.pos (digits2_pos p) <= 2 ^ (d - 1))
      by (apply Z.pow_le_mono_r; lia).
    lia.
  - exfalso.
    assert (2 ^ d <= 2 ^ (Z.pos (digits2_pos p) - 1))
      by (apply Z.pow_le_mono_r; lia).
    lia.
Qed.

Lemma iter_xO_mul (p k : positive) :
  Z.pos (Pos.iter xO p k) = Z.pos p * 2 ^ Z.pos k.
Proof.
  induction k as [|k IH] using Pos.peano_ind.
  - cbn. lia.
  - rewrite Pos.iter_succ, Pos2Z.inj_succ, Z.pow_succ_r by lia.
    rewrite Pos2Z.inj_xO, IH. lia.
Qed.

(** A mantissa of full width at an exponent in range is left unchanged. *)
Lemma binary_round_aux_canonical (s : bool) (m : positive) (e : Z) :
  Z.pos (digits2_pos m) = prec32 -> -149 <= e <= 104 ->
  binary_round_aux prec32 emax32 s (Z.pos m) e loc_Exact
  = S754_finite s m e.
Proof.
  intros Hd He. unfold binary_round_aux, shr_fexp.
  cbn [Zdigits2 shr_record_of_loc]. rewrite Hd.
  assert (Hf : fexp prec32 emax32 (prec32 + e) - e = 0).
  { unfold fexp, emin, prec32, emax32. lia. }
  rewrite Hf. cbn [shr shr_m loc_of_shr_record round_nearest_even Zdigits2
                   shr_record_of_loc].
  rewrite Hd, Hf. cbn [shr shr_m].
  replace (e <=? emax32 - prec32) with true; [reflexivity|].
  symmetry. apply Z.leb_le. unfold emax32, prec32. lia.
Qed.

Lemma float_of_unsigned_small (p : positive) :
  Z.pos p < 2 ^ 24 ->
  exists m e,
    float_of_unsigned (Z.pos p) = S754_finite false m e
    /\ Z.pos (digits2_pos m) = prec32
    /\ -23 <= e <= 0
    /\ Z.pos m = Z.pos p * 2 ^ (- e).
Proof.
  intros Hp. pose proof (digits2_pos_bounds p) as [Hlo Hhi].
  set (d := Z.pos (digits2_pos p)) in *.
  assert (Hd : 1 <= d <= 24).
  { split; [subst d; lia|].
    destruct (Z.leb_spec d 24); [assumption|]. exfalso.
    assert (2 ^ 24 <= 2 ^ (d - 1)) by (apply Z.pow_le_mono_r; lia). lia. }
  unfold float_of_unsigned, binary_normalize, binary_round.
  fold d.
  assert (Hf : fexp prec32 emax32 (d + 0) = d - 24).
  { unfold fexp, emin, prec32, emax32. lia. }
  rewrite Hf. unfold shl_align.
  destruct (d - 24 - 0) as [|k|k] eqn:Hk; [ | lia | ].
  - exists p, 0. assert (d = 24) by lia.
    rewrite binary_round_aux_canonical by (unfold prec32; lia).
    repeat split; try lia. unfold prec32. subst d. lia.
  - assert (Hm : Z.pos (Pos.iter xO p k) = Z.pos p * 2 ^ (24 - d)).
    { rewrite iter_xO_mul. f_equal. f_equal. lia. }
    assert (Hdm : Z.pos (digits2_pos (Pos.iter xO p k)) = prec32).
    { apply digits2_pos_unique. rewrite Hm. unfold prec32.
      replace (2 ^ (24 - 1)) with (2 ^ (d - 1) * 2 ^ (24 - d))
        by (rewrite <- Z.pow_add_r by lia; f_equal; lia).
      replace (2 ^ 24) with (2 ^ d * 2 ^ (24 - d))
        by (rewrite <- Z.pow_add_r by lia; f_equal; lia).
      assert (0 < 2 ^ (24 - d)) by (apply Z.pow_pos_nonneg; lia).
      split; nia. }
    exists (Pos.iter xO p k), (d - 24).
    rewrite binary_round_aux_canonical by (try exact Hdm; lia).
    repeat split; try lia. rewrite Hm. f_equal. f_equal. lia.
Qed.

Lemma div_eucl_exact (a b q : Z) :
  0 < b -> a = q * b -> Z.div_eucl a b = (q, 0).
Proof.
  intros Hb ->. pose proof (Z.div_mul q b ltac:(lia)) as Hq.
  pose proof (Z.mod_mul q b ltac:(lia)) as Hr.
  unfold Z.div, Z.modulo in Hq, Hr.
  destruct (Z.div_eucl (q * b) b) as [q' r']. cbn in Hq, Hr. congruence.
Qed.

(** Division by a power of two only moves the exponent. *)
Lemma float_div_pow2 (m1 : positive) (e1 e2 : Z) :
  Z.pos (digits2_pos m1) = prec32 ->
  -23 <= e1 <= 0 -> -23 <= e2 <= 0 ->
  float_div (S754_finite false m1 e1) (S754_finite false 8388608 e2)
  = S754_finite false m1 (e1 - e2 - 23).
Proof.
  intros Hd He1 He2. unfold float_div, SFdiv, SFdiv_core_binary.
  cbn [Zdigits2 xorb]. rewrite Hd.
  change (Z.pos (digits2_pos 8388608)) with 24.
  set (x := e1 - e2).
  assert (Hmin : Z.min (fexp prec32 emax32 (prec32 + e1 - (24 + e2))) x
                 = x - 24).
  { unfold fexp, emin, prec32, emax32. subst x. lia. }
  rewrite Hmin. replace (x - (x - 24)) with 24 by lia.
  rewrite (div_eucl_exact _ _ (Z.pos m1~0));
    [ | lia | rewrite Z.shiftl_mul_pow2 by lia; lia ].
  change (new_location 8388608 0) with loc_Exact.
  unfold binary_round_aux, shr_fexp.
  cbn [Zdigits2 digits2_pos shr_record_of_loc].
  rewrite Pos2Z.inj_succ, Hd.
  assert (Hf : fexp prec32 emax32 (Z.succ prec32 + (x - 24)) - (x - 24) = 1).
  { unfold fexp, emin, prec32, emax32. subst x. lia. }
  rewrite Hf.
  cbn [shr iter_pos shr_1 orb shr_m loc_of_shr_record round_nearest_even
         Zdigits2 shr_record_of_loc].
  rewrite Hd.
  assert (Hf2 : fexp prec32 emax32 (prec32 + (x - 24 + 1)) - (x - 24 + 1) = 0).
  { unfold fexp, emin, prec32, emax32. subst x. lia. }
  rewrite Hf2. cbn [shr shr_m].
  replace (x - 24 + 1 <=? emax32 - prec32) with true
    by (symmetry; apply Z.leb_le; unfold emax32, prec32; subst x; lia).
  f_equal. subst x. lia.
Qed.

(** A power of two up to 2^23 converts to the mantissa 2^23. *)
Lemma float_of_unsigned_pow2 (j : Z) :
  0 <= j <= 23 ->
  float_of_unsigned (2 ^ j) = S754_finite false 8388608 (j - 23).
Proof.
  intros Hj.
  assert (Hpos : 0 < 2 ^ j) by (apply Z.pow_pos_nonneg; lia).
  destruct (2 ^ j) as [|p|p] eqn:Hp; try lia.
  assert (Hlt : Z.pos p < 2 ^ 24).
  { rewrite <- Hp. apply Z.pow_lt_mono_r; lia. }
  destruct (float_of_unsigned_small p Hlt) as [m [e [-> [Hd [He Hm]]]]].
  pose proof (digits2_pos_bounds m) as Hb. rewrite Hd in Hb.
  unfold prec32 in Hb. rewrite <- Hp, <- Z.pow_add_r in Hm by lia.
  assert (Hje : j + - e = 23).
  { destruct (Z.lt_trichotomy (j + - e) 23) as [Hlt' | [Heq | Hgt]];
      [ | exact Heq | ]; exfalso.
    - assert (2 ^ (j + - e) <= 2 ^ 22) by (apply Z.pow_le_mono_r; lia).
      change (24 - 1) with 23 in Hb.
      assert (2 ^ 22 < 2 ^ 23) by (apply Z.pow_lt_mono_r; lia). lia.
    - assert (2 ^ 24 <= 2 ^ (j + - e)) by (apply Z.pow_le_mono_r; lia).
      lia. }
  rewrite Hje in Hm. change (2 ^ 23) with (Z.pos 8388608) in Hm.
  injection Hm as ->. f_equal. lia.
Qed.

(** X7: for a byte count below 2^24 (16 MiB) and a cache line of 2^j
    bytes, j from 0 to 23, no float operation rounds: [num_cls] is the
    exact ceiling of the byte count over the cache-line size. *)
Theorem num_cls_exact_below_16MiB (cfg : config) (j : Z) :
  0 <= j <= 23 ->
  CL_BYTES cfg = 2 ^ j ->
  0 <= Z.of_N (DATA_AMOUNT cfg) * dma_bytes cfg < 2 ^ 24 ->
  num_cls cfg
  = Some (ceil_div (Z.of_N (DATA_AMOUNT cfg) * dma_bytes cfg) (2 ^ j)).
Proof.
  intros Hj Hcl Ha.
  set (a := Z.of_N (DATA_AMOUNT cfg) * dma_bytes cfg) in *.
  assert (Hpos : 0 < 2 ^ j) by (apply Z.pow_pos_nonneg; lia).
  assert (Htb : total_bytes cfg = a).
  { unfold total_bytes, wrap_unsigned. fold a. apply Z.mod_small.
    assert (2 ^ 24 < 2 ^ 32) by (apply Z.pow_lt_mono_r; lia). lia. }
  assert (Hrange : forall z, 0 <= z <= a -> unsigned_of_integral z = Some z).
  { intros z Hz. unfold unsigned_of_integral.
    assert (2 ^ 24 < 2 ^ 32) by (apply Z.pow_lt_mono_r; lia).
    replace (0 <=? z) with true by (symmetry; apply Z.leb_le; lia).
    replace (z <? 2 ^ 32) with true by (symmetry; apply Z.ltb_lt; lia).
    reflexivity. }
  unfold num_cls. rewrite Htb, Hcl, (float_of_unsigned_pow2 j Hj).
  destruct a as [|p|p] eqn:Hp; [ | | lia ].
  - change (float_of_unsigned 0) with (S754_zero false).
    cbn [float_div SFdiv float_ceil]. unfold float_div. cbn [SFdiv float_ceil].
    rewrite Hrange by lia. reflexivity.
  - destruct (float_of_unsigned_small p (proj2 Ha))
      as [m [e [-> [Hd [He Hm]]]]].
    rewrite float_div_pow2 by (try exact Hd; lia).
    erewrite (float_ceil_exact _ _ (Z.pos p) (2 ^ j) Hpos);
      [ | reflexivity | ].
    + apply Hrange. apply ceil_div_bounds; lia.
    + cbn [float_value].
      assert (Hd2 : 0 < 2 ^ (- e)) by (apply Z.pow_pos_nonneg; lia).
      destruct (0 <=? e - (j - 23) - 23) eqn:Hs.
      * apply Z.leb_le in Hs. assert (e = 0 /\ j = 0) as [-> ->] by lia.
        cbn in Hm |- *. unfold Qeq. cbn. lia.
      * apply Z.leb_gt in Hs. unfold Qeq. cbn [Qnum Qden].
        rewrite Z2Pos.id by lia.
        rewrite Pos2Z.inj_pow, Z2Pos.id by lia.
        replace (- (e - (j - 23) - 23)) with (- e + j) by lia.
        rewrite Z.pow_add_r by lia. rewrite Hm. lia.
Qed.

(** X8: with [AFU::CL_BYTES] = 0 the division is by zero, the quotient is
    an infinity (a NaN for a byte count of 0) and its conversion to
    [unsigned] is undefined: [num_cls] has no value. *)
Theorem num_cls_undefined_without_cache_line (cfg : config) :
  CL_BYTES cfg = 0 ->
  0 <= Z.of_N (DATA_AMOUNT cfg) * dma_bytes cfg < 2 ^ 24 ->
  num_cls cfg = None.
Proof.
  intros Hcl Ha.
  set (a := Z.of_N (DATA_AMOUNT cfg) * dma_bytes cfg) in *.
  assert (Htb : total_bytes cfg = a).
  { unfold total_bytes, wrap_unsigned. fold a. apply Z.mod_small.
    assert (2 ^ 24 < 2 ^ 32) by (apply Z.pow_lt_mono_r; lia). lia. }
  unfold num_cls. rewrite Htb, Hcl.
  change (float_of_unsigned 0) with (S754_zero false).
  destruct a as [|p|p]; [ reflexivity | | lia ].
  destruct (float_of_unsigned_small p (proj2 Ha)) as [m [e [-> _]]].
  reflexivity.
Qed.

(** ** The runs of a test, case by case *)

Section MoreRuns.

Context {W : Type}.
Variable cfg : config.
Variable host : Host W.

Ltac list_norm :=
  repeat first [ rewrite <- app_assoc | progress cbn [app] ].

Ltac stopped_by c :=
  match goal with
  | |- body_run _ _ _ ?t _ =>
      let H := fresh in
      eassert (H : t = _); [ | rewrite H; eapply c; eassumption ];
      unfold reported, compared, programmed, allocated; list_norm;
      reflexivity
  end.

(** Every run of a test is one of the listed runs. *)
Lemma test_body_runs (fuel : nat) (test : Z) (w : W) (t : list event)
  (r : res unit) (w' : W) :
  test_body cfg host fuel test w = (t, r, w') ->
  body_run cfg fuel test t r.
Proof.
  unfold test_body, malloc, write, read, free. intros H.
  apply bind_call_inv in H.
  destruct H as [[e [-> ->]] | [input [w1 [t1 [H ->]]]]].
  { apply Run_first_malloc_throws. }
  apply bind_call_inv in H.
  destruct H as [[e [-> ->]] | [output [w2 [t2 [H ->]]]]].
  { apply Run_second_malloc_throws. }
  apply bind_cout_inv in H. destruct H as [t3 [H ->]].
  apply bind_cout_inv in H. destruct H as [t4 [H ->]].
  apply bind_cout_inv in H. destruct H as [t5 [H ->]].
  apply bind_fill_inv in H. destruct H as [vs [w3 [t6 [Hvs [H ->]]]]].
  apply bind_call_inv in H.
  destruct H as [[e [-> ->]] | [[] [w4 [t7 [H ->]]]]].
  { stopped_by Run_write_rd_throws. }
  apply bind_call_inv in H.
  destruct H as [[e [-> ->]] | [[] [w5 [t8 [H ->]]]]].
  { stopped_by Run_write_wr_throws. }
  destruct (num_cls cfg) as [cls|] eqn:Hcls.
  2:{ unfold bind at 1, stop in H. injection H as <- <- <-.
      stopped_by Run_size_undefined. }
  apply bind_inv in H.
  destruct H as [[h [Hc _]] | [t9 [c [w6 [t10 [Hc [H ->]]]]]]];
    [discriminate|].
  injection Hc as <- <- <-. cbn [app].
  apply bind_call_inv in H.
  destruct H as [[e [-> ->]] | [[] [w7 [t11 [H ->]]]]].
  { stopped_by Run_write_size_throws. }
  apply bind_call_inv in H.
  destruct H as [[e [-> ->]] | [[] [w8 [t12 [H ->]]]]].
  { stopped_by Run_write_go_throws. }
  apply bind_poll_inv in H.
  destruct H as [[k [e [Hk [-> ->]]]]
                | [[-> ->] | [k [v [w9 [t13 [Hk [Hv [H ->]]]]]]]]].
  { stopped_by Run_poll_throws. }
  { stopped_by Run_still_polling. }
  apply bind_verify_inv in H. destruct H as [ps [w10 [t14 [Hps [H ->]]]]].
  apply bind_cout_inv in H. destruct H as [t15 [H ->]].
  apply bind_call_inv in H.
  destruct H as [[e [-> ->]] | [resets [w11 [t16 [H ->]]]]].
  { stopped_by Run_resets_read_throws. }
  apply bind_cout_inv in H. destruct H as [t17 [H ->]].
  apply bind_when_cout_inv in H. destruct H as [t18 [H ->]].
  apply bind_cout_inv in H. destruct H as [t19 [H ->]].
  apply bind_call_inv in H.
  destruct H as [[e [-> ->]] | [[] [w12 [t20 [H ->]]]]].
  { stopped_by Run_first_free_throws. }
  apply call_inv in H.
  destruct H as [[e [-> ->]] | [[] [-> ->]]].
  { stopped_by Run_second_free_throws. }
  stopped_by Run_done.
Qed.

(** Every run of [main]: the constructor throws, or the one test runs in
    one of the listed ways and [main] concludes. *)
Lemma main_runs (fuel : nat) (w : W) (t : list event) (o : outcome)
  (w' : W) :
  main cfg host fuel w = (t, o, w') ->
  (exists e,
      t = EvThrown (AfuNew (AFU_ACCEL_UUID cfg)) e
            :: fst (conclusion cfg host (Halt (Raised e)))
      /\ o = snd (conclusion cfg host (Halt (Raised e))))
  \/ (exists tb r,
         body_run cfg fuel 0 tb r
         /\ t = EvNew (AFU_ACCEL_UUID cfg) :: tb
                  ++ fst (conclusion cfg host r)
         /\ o = snd (conclusion cfg host r)).
Proof.
  intros H. apply main_inv in H.
  destruct H as [H | [w1 [tb [r [Hb [Ht Ho]]]]]]; [left; exact H|].
  right. exists tb, r. split; [|auto].
  exact (test_body_runs _ _ _ _ _ _ Hb).
Qed.

Lemma filter_fill_trace (f : event -> bool) (i input output : Z)
  (vs : list Z) :
  (forall v, f (EvRand v) = false) ->
  (forall p j v, f (EvStore p j v) = false) ->
  filter f (fill_trace cfg i input output vs) = [].
Proof.
  intros Hr Hs. revert i. induction vs as [|v vs IH]; intros i;
    [reflexivity|].
  cbn [fill_trace filter]. rewrite Hr, !Hs. apply IH.
Qed.

Lemma filter_waits (f : event -> bool) (k : nat) :
  (forall off v, f (EvRead off v) = false) ->
  (forall ms, f (EvSleep ms) = false) ->
  filter f (waits cfg k) = [].
Proof.
  intros Hr Hs. induction k as [|k IH]; [reflexivity|].
  cbn [waits]. rewrite filter_app, IH, app_nil_r. unfold wait_step.
  destruct (SLEEP_WHILE_WAITING cfg); cbn [filter];
    rewrite ?Hr, ?Hs; reflexivity.
Qed.

Lemma filter_verify_trace (f : event -> bool) (i input output : Z)
  (ps : list (Z * Z)) :
  (forall p j v, f (EvLoad p j v) = false) ->
  filter f (verify_trace i input output ps) = [].
Proof.
  intros Hl. revert i. induction ps as [|[o x] ps IH]; intros i;
    [reflexivity|].
  cbn [verify_trace filter]. rewrite !Hl. apply IH.
Qed.

Lemma filter_conclusion (f : event -> bool) (r : res unit) :
  (forall msg, f (EvErr msg) = false) ->
  filter f (fst (conclusion cfg host r)) = [].
Proof.
  intros Hf. destruct r as [[]|[e| |]]; cbn [conclusion fst]; auto.
  destruct (handler cfg host e); cbn [fst filter]; rewrite ?Hf; reflexivity.
Qed.

Lemma filter_when_out (f : event -> bool) (c : bool) (s : string) :
  f (EvOut s) = false -> filter f (if c then [EvOut s] else []) = [].
Proof. intros Hf. destruct c; cbn [filter]; rewrite ?Hf; reflexivity. Qed.

Ltac filter_trace :=
  unfold reported, compared, programmed, allocated;
  repeat rewrite filter_app;
  rewrite ?filter_fill_trace, ?filter_waits, ?filter_verify_trace,
    ?filter_conclusion, ?filter_when_out by reflexivity;
  cbn [filter app is_free is_malloc is_thrown is_write is_load is_err].

Ltac filter_trace_in H :=
  unfold reported, compared, programmed, allocated in H;
  repeat rewrite filter_app in H;
  rewrite ?filter_fill_trace, ?filter_waits, ?filter_verify_trace,
    ?filter_conclusion, ?filter_when_out in H by reflexivity;
  cbn [filter app is_free is_malloc is_thrown is_write is_load is_err] in H.

Lemma conclusion_not_polling (e : exn) :
  snd (conclusion cfg host (Halt (Raised e))) <> StillPolling.
Proof. cbn [conclusion]. destruct (handler cfg host e); discriminate. Qed.

(** The one throw of a trace, found through [filter]. *)
Lemma thrown_in_filter (t : list event) (c : afu_call) (e : exn) :
  In (EvThrown c e) t -> In (EvThrown c e) (filter is_thrown t).
Proof. intros H. apply filter_In. split; [exact H | reflexivity]. Qed.

Ltac which_throw H :=
  apply thrown_in_filter in H; cbn [filter is_thrown] in H;
  filter_trace_in H;
  repeat match type of H with
         | In _ [] => destruct H
         | In _ (_ :: _) => destruct H as [H | H]
         end;
  try discriminate.

(** ** Register accesses

    The register accesses of a run are found by position: the trace of a
    run is one of the listed traces, and an access in it is one of its
    writes, one of its polls or the read of the literal offset. *)

Lemma waits_mmio (k : nat) (m1 m2 : list event) (e : event) :
  waits cfg k = m1 ++ e :: m2 -> is_mmio e = true ->
  e = EvRead (MMIO_DONE cfg) 0.
Proof.
  revert m1. induction k as [|k IH]; intros m1 H He.
  - exfalso. exact (app_cons_not_nil _ _ _ H).
  - cbn [waits] in H. unfold wait_step in H. cbn [app] in H.
    apply split_cons in H. destruct H as [[_ [-> _]] | [p [-> H]]];
      [reflexivity|].
    destruct (SLEEP_WHILE_WAITING cfg); cbn [app] in H; [|eauto].
    apply split_cons in H. destruct H as [[_ [-> _]] | [q [-> H]]];
      [discriminate | eauto].
Qed.

Lemma filter_mmio_waits (k : nat) :
  filter is_mmio (waits cfg k) = repeat (EvRead (MMIO_DONE cfg) 0) k.
Proof.
  induction k as [|k IH]; [reflexivity|].
  cbn [waits repeat]. rewrite filter_app, IH. unfold wait_step.
  destruct (SLEEP_WHILE_WAITING cfg); reflexivity.
Qed.

Lemma verify_trace_loads (i input output : Z) (ps : list (Z * Z)) :
  List.length (filter is_load (verify_trace i input output ps))
  = (2 * List.length ps)%nat.
Proof.
  revert i. induction ps as [|[o x] ps IH]; intros i; [reflexivity|].
  cbn [verify_trace filter is_load List.length]. rewrite IH. lia.
Qed.


Lemma waits_split (k : nat) (p m : list event) (e : event) :
  waits cfg k = p ++ e :: m -> is_mmio e = true ->
  e = EvRead (MMIO_DONE cfg) 0
  /\ forall f, (forall off v, f (EvRead off v) = false) ->
               (forall ms, f (EvSleep ms) = false) ->
               filter f p = [] /\ filter f m = [].
Proof.
  intros Hw He. split; [exact (waits_mmio _ _ _ _ Hw He)|].
  intros f Hr Hsl. pose proof (filter_waits f k Hr Hsl) as Hf.
  rewrite Hw in Hf. apply filter_nil_split in Hf. tauto.
Qed.

Ltac filt :=
  repeat first
    [ progress cbn [filter app is_malloc is_load is_write is_mmio]
    | match goal with H : filter _ _ = [] |- _ => rewrite H end
    | rewrite filter_app
    | rewrite filter_fill_trace by reflexivity
    | rewrite filter_waits by reflexivity
    | rewrite filter_mmio_waits
    | rewrite filter_verify_trace by reflexivity
    | rewrite filter_conclusion by reflexivity
    | rewrite filter_when_out by reflexivity ].

Ltac find_in :=
  solve [ repeat first [ left; reflexivity | right | apply in_or_app; right ] ].

Ltac found :=
  do 3 eexists; split; [reflexivity|];
  split; [filt; reflexivity|];
  split; [cbn [mmio_allowed]; auto 6|];
  let off := fresh "off" in
  let Hoff := fresh "Hoff" in
  intros off Hoff; cbn [read_at] in Hoff;
  first
    [ discriminate Hoff
    | injection Hoff as <-;
      first
        [ left; split; [reflexivity|]; split; [filt; reflexivity|];
          eexists; split; [eassumption|]; filt; reflexivity
        | right; split; [reflexivity|];
          split; [eexists; split; [eassumption | find_in]|];
          split;
          [ filt; rewrite ?app_nil_r, verify_trace_loads; congruence
          | split; filt; reflexivity ] ] ].

Ltac in_waits Hw He :=
  apply waits_split in Hw; [|exact He];
  let Hf := fresh "Hf" in
  destruct Hw as [-> Hf];
  destruct (Hf is_malloc) as [? ?]; [reflexivity | reflexivity |];
  destruct (Hf is_load) as [? ?]; [reflexivity | reflexivity |];
  destruct (Hf is_write) as [? ?]; [reflexivity | reflexivity |];
  found.

Ltac locate Hs He :=
  lazymatch type of Hs with
  | [] = _ => exfalso; exact (app_cons_not_nil _ _ _ Hs)
  | _ :: _ = _ =>
      apply split_cons in Hs;
      let p := fresh "p" in
      destruct Hs as [[-> [-> ->]] | [p [-> Hs]]];
      [ first [ discriminate He | found ] | locate Hs He ]
  | waits _ _ ++ _ = _ =>
      apply split_app in Hs;
      let p := fresh "p" in
      let m := fresh "m" in
      let Hw := fresh "Hw" in
      destruct Hs as [[m [Hw ->]] | [p [-> Hs]]];
      [ in_waits Hw He | locate Hs He ]
  | _ ++ _ = _ =>
      apply (split_skip is_mmio) in Hs; [ | filt; reflexivity | exact He ];
      let p := fresh "p" in
      destruct Hs as [p [-> Hs]]; locate Hs He
  | _ = _ =>
      exfalso; revert Hs; apply (split_none is_mmio);
      [ filt; reflexivity | exact He ]
  end.

Lemma accessed_is_mmio (off : Z) (e : event) :
  accessed off e -> is_mmio e = true.
Proof.
  destruct e as [| | | | |c ex| | | | | |]; try contradiction;
    try reflexivity.
  destruct c; try contradiction; reflexivity.
Qed.

Lemma allowed_offset (input output off : Z) (e : event) :
  mmio_allowed cfg input output e -> accessed off e ->
  In off (named_offsets cfg) \/ off = RESETS_OFFSET.
Proof.
  unfold named_offsets.
  destruct e as [| | o1 v | o1 v | |c ex| | | | | |]; try contradiction;
    [ | | destruct c as [| | o1 v | o1 |]; try contradiction ];
    cbn [accessed mmio_allowed]; intros Hall <-; cbn [In]; intuition.
Qed.

(** C5, as the code has it: besides the five named registers [main]
    reads the literal offset 0x0060.  Every register access of a run,
    attempted ones included, comes after the two allocations, which are
    the only ones and whose results are [input] and [output]: a write is
    of the read address with [input], of the write address with [output],
    of the size with [num_cls] or of go with 1; a read is a poll of
    [MMIO_DONE], made after the four writes and before any element is
    loaded, or the read of 0x0060, made after a non-zero poll and after
    all the loads of the comparison, and it is the last access.  No other
    offset is accessed.  A run that returns [EXIT_SUCCESS] makes exactly
    these accesses: the four writes once each, the polls, and one read of
    0x0060. *)
Theorem register_accesses (fuel : nat) (w : W) (t : list event)
  (o : outcome) (w' : W) :
  main cfg host fuel w = (t, o, w') ->
  (forall off, Exists (accessed off) t ->
               In off (named_offsets cfg) \/ off = RESETS_OFFSET)
  /\ (forall pre e post,
        t = pre ++ e :: post -> is_mmio e = true ->
        exists input output mid,
          pre = EvNew (AFU_ACCEL_UUID cfg)
                  :: EvMalloc (DATA_AMOUNT cfg) input
                  :: EvMalloc (DATA_AMOUNT cfg) output :: mid
          /\ filter is_malloc (mid ++ post) = []
          /\ mmio_allowed cfg input output e
          /\ (forall off, read_at e = Some off ->
                (off = MMIO_DONE cfg
                 /\ filter is_load pre = []
                 /\ exists cls,
                      num_cls cfg = Some cls
                      /\ filter is_write pre
                         = [EvWrite (MMIO_RD_ADDR cfg) input;
                            EvWrite (MMIO_WR_ADDR cfg) output;
                            EvWrite (MMIO_SIZE cfg) cls;
                            EvWrite (MMIO_GO cfg) 1])
                \/ (off = RESETS_OFFSET
                    /\ (exists v, v <> 0 /\ In (EvRead (MMIO_DONE cfg) v) pre)
                    /\ List.length (filter is_load pre)
                       = (2 * N.to_nat (DATA_AMOUNT cfg))%nat
                    /\ filter is_load post = []
                    /\ filter is_mmio post = [])))
  /\ (o = Exit EXIT_SUCCESS ->
      exists input output cls k v resets,
        num_cls cfg = Some cls /\ v <> 0
        /\ filter is_malloc t
           = [EvMalloc (DATA_AMOUNT cfg) input;
              EvMalloc (DATA_AMOUNT cfg) output]
        /\ filter is_mmio t
           = [EvWrite (MMIO_RD_ADDR cfg) input;
              EvWrite (MMIO_WR_ADDR cfg) output;
              EvWrite (MMIO_SIZE cfg) cls; EvWrite (MMIO_GO cfg) 1]
             ++ repeat (EvRead (MMIO_DONE cfg) 0) k
             ++ [EvRead (MMIO_DONE cfg) v; EvRead RESETS_OFFSET resets]).
Proof.
  intros Hmain.
  assert (Hpos : forall pre e post,
        t = pre ++ e :: post -> is_mmio e = true ->
        exists input output mid,
          pre = EvNew (AFU_ACCEL_UUID cfg)
                  :: EvMalloc (DATA_AMOUNT cfg) input
                  :: EvMalloc (DATA_AMOUNT cfg) output :: mid
          /\ filter is_malloc (mid ++ post) = []
          /\ mmio_allowed cfg input output e
          /\ (forall off, read_at e = Some off ->
                (off = MMIO_DONE cfg
                 /\ filter is_load pre = []
                 /\ exists cls,
                      num_cls cfg = Some cls
                      /\ filter is_write pre
                         = [EvWrite (MMIO_RD_ADDR cfg) input;
                            EvWrite (MMIO_WR_ADDR cfg) output;
                            EvWrite (MMIO_SIZE cfg) cls;
                            EvWrite (MMIO_GO cfg) 1])
                \/ (off = RESETS_OFFSET
                    /\ (exists v, v <> 0 /\ In (EvRead (MMIO_DONE cfg) v) pre)
                    /\ List.length (filter is_load pre)
                       = (2 * N.to_nat (DATA_AMOUNT cfg))%nat
                    /\ filter is_load post = []
                    /\ filter is_mmio post = []))).
  { intros pre e post Hs He. pose proof Hmain as Hrun.
    apply main_runs in Hrun.
    destruct Hrun as [[e0 [-> _]] | [tb [r [Hrun [-> _]]]]].
    - exfalso. revert Hs. apply (split_none is_mmio); [|exact He].
      cbn [filter is_mmio]. apply filter_conclusion. reflexivity.
    - destruct Hrun;
        unfold reported, compared, programmed, allocated in Hs;
        revert Hs; list_norm; intros Hs; locate Hs He. }
  split; [|split; [exact Hpos|]].
  - intros off Hex. apply Exists_exists in Hex.
    destruct Hex as [e [Hin Hacc]]. apply in_split in Hin.
    destruct Hin as [pre [post Hs]].
    destruct (Hpos pre e post Hs (accessed_is_mmio off e Hacc))
      as [input [output [mid [_ [_ [Hall _]]]]]].
    exact (allowed_offset input output off e Hall Hacc).
  - intros ->. apply main_done in Hmain.
    destruct Hmain as [input [output [vs [cls [k [v [ps [resets
                        [-> [_ [Hcls [_ [Hv _]]]]]]]]]]]]].
    exists input, output, cls, k, v, resets.
    split; [exact Hcls|]. split; [exact Hv|].
    unfold full_trace. split; filt; rewrite <- ?app_assoc; reflexivity.
Qed.

(** ** Releases *)

(** X1: in a run of [main] that does not return [EXIT_SUCCESS] at most
    one of the two calls of [afu.free] has returned.  When a register read
    or write throws, or [main] is still polling, both allocations have
    returned and no call of [afu.free] has: the catch clauses release
    nothing.  What the destructor of [afu] releases is not part of
    main.cpp and is not stated here. *)
Theorem at_most_one_free_on_failure (fuel : nat) (w : W)
  (t : list event) (o : outcome) (w' : W) :
  main cfg host fuel w = (t, o, w') ->
  o <> Exit EXIT_SUCCESS ->
  (List.length (filter is_free t) <= 1)%nat
  /\ ((o = StillPolling
       \/ exists c e, register_call c = true /\ In (EvThrown c e) t) ->
      exists input output,
        filter is_malloc t
        = [EvMalloc (DATA_AMOUNT cfg) input;
           EvMalloc (DATA_AMOUNT cfg) output]
        /\ filter is_free t = []).
Proof.
  intros H Ho. apply main_runs in H.
  destruct H as [[e [-> ->]] | [tb [r [Hrun [-> ->]]]]].
  - split.
    + cbn [filter is_free]. rewrite filter_conclusion by reflexivity.
      cbn. lia.
    + intros [Hsp | [c [e0 [Hreg Hin]]]].
      * exfalso. exact (conclusion_not_polling e Hsp).
      * exfalso. which_throw Hin. injection Hin as <- <-. discriminate.
  - destruct Hrun; try (exfalso; apply Ho; reflexivity); (split;
      [ cbn [filter is_free]; filter_trace; cbn [List.length]; lia
      | intros [Hsp | [c [e0 [Hreg Hin]]]];
        [ try (exfalso; exact (conclusion_not_polling _ Hsp));
          try discriminate
        | which_throw Hin;
          try (injection Hin as <- <-; try discriminate) ] ]);
      try (exfalso; apply Ho; reflexivity);
      try (exists input, output; split;
           [ cbn [filter is_malloc]; filter_trace; reflexivity
           | cbn [filter is_free]; filter_trace; reflexivity ]).
Qed.

(** ** Exit code, [cerr] and exceptions *)

Lemma conclusion_caught (e : exn) :
  e <> ExOther ->
  exists msg,
    conclusion cfg host (Halt (Raised e)) = ([EvErr msg], Exit EXIT_FAILURE).
Proof.
  intros He. cbn [conclusion]. destruct e as [r | what | |];
    cbn [handler]; eauto. congruence.
Qed.

Lemma conclusion_failure (r : res unit) :
  snd (conclusion cfg host r) = Exit EXIT_FAILURE ->
  exists e, r = Halt (Raised e) /\ e <> ExOther.
Proof.
  destruct r as [[]|[e| |]]; cbn [conclusion snd]; try discriminate.
  intros H. exists e. split; [reflexivity|]. intros ->.
  cbn [handler snd] in H. discriminate.
Qed.

(** The throws and the [cerr] lines of a test: none, or the one throw
    that stopped it. *)
Lemma body_run_throws (fuel : nat) (test : Z) (tb : list event)
  (r : res unit) :
  body_run cfg fuel test tb r ->
  filter is_err tb = []
  /\ match r with
     | Halt (Raised e) => exists c, filter is_thrown tb = [EvThrown c e]
     | _ => filter is_thrown tb = []
     end.
Proof.
  intros Hrun. destruct Hrun;
    (split; [ cbn [filter is_err]; filter_trace; reflexivity
            | try eexists; cbn [filter is_thrown]; filter_trace;
              reflexivity ]).
Qed.

(** X3: [main] returns [EXIT_FAILURE] exactly when a wrapper call threw
    an exception of one of the three caught types, and exactly when it
    wrote a line to [cerr].  The only exit codes are [EXIT_SUCCESS] and
    [EXIT_FAILURE]. *)
Theorem exit_failure_iff_caught_exception (fuel : nat) (w : W)
  (t : list event) (o : outcome) (w' : W) :
  main cfg host fuel w = (t, o, w') ->
  (o = Exit EXIT_FAILURE <->
   exists c e, In (EvThrown c e) t /\ e <> ExOther)
  /\ (o = Exit EXIT_FAILURE <-> exists msg, In (EvErr msg) t)
  /\ (forall code, o = Exit code ->
                   code = EXIT_SUCCESS \/ code = EXIT_FAILURE).
Proof.
  intros H. apply main_runs in H.
  assert (Herr : forall l msg, In (EvErr msg) l ->
                               In (EvErr msg) (filter is_err l)).
  { intros l msg Hin. apply filter_In. auto. }
  assert (Hcodes : forall r code,
             snd (conclusion cfg host r) = Exit code ->
             code = EXIT_SUCCESS \/ code = EXIT_FAILURE).
  { intros [[]|[e| |]] code; cbn [conclusion snd]; try discriminate.
    - intros Hc. injection Hc as <-. auto.
    - destruct (handler cfg host e); cbn [snd]; try discriminate.
      intros Hc. injection Hc as <-. auto. }
  destruct H as [[e [-> ->]] | [tb [r [Hrun [-> ->]]]]].
  - split; [|split; [|apply Hcodes]].
    + split.
      * intros Ho. apply conclusion_failure in Ho.
        destruct Ho as [e0 [He0 Hne]]. injection He0 as <-.
        exists (AfuNew (AFU_ACCEL_UUID cfg)), e. split; [left; auto | auto].
      * intros [c [e0 [Hin Hne]]]. which_throw Hin.
        injection Hin as <- <-.
        destruct (conclusion_caught e Hne) as [msg ->]. reflexivity.
    + split.
      * intros Ho. apply conclusion_failure in Ho.
        destruct Ho as [e0 [He0 Hne]]. injection He0 as <-.
        destruct (conclusion_caught e Hne) as [msg ->].
        exists msg. right. left. reflexivity.
      * intros [msg Hin]. destruct Hin as [Hin | Hin]; [discriminate|].
        cbn [conclusion] in *. destruct (handler cfg host e);
          [reflexivity | destruct Hin].
  - destruct (body_run_throws _ _ _ _ Hrun) as [Hnoerr Hthrows].
    split; [|split; [|apply Hcodes]].
    + split.
      * intros Ho. apply conclusion_failure in Ho.
        destruct Ho as [e [-> Hne]]. destruct Hthrows as [c Hc].
        exists c, e. split; [|exact Hne]. right. apply in_or_app. left.
        apply (filter_In is_thrown). rewrite Hc. left. reflexivity.
      * intros [c [e [Hin Hne]]]. apply thrown_in_filter in Hin.
        cbn [filter is_thrown] in Hin.
        rewrite filter_app, filter_conclusion, app_nil_r in Hin
          by reflexivity.
        destruct r as [[]|[e0| |]]; try (rewrite Hthrows in Hin;
                                          destruct Hin).
        destruct Hthrows as [c0 Hc]. rewrite Hc in Hin.
        destruct Hin as [Hin | []]. injection Hin as <- <-.
        destruct (conclusion_caught e0 Hne) as [msg ->]. reflexivity.
    + split.
      * intros Ho. apply conclusion_failure in Ho.
        destruct Ho as [e [-> Hne]].
        destruct (conclusion_caught e Hne) as [msg ->].
        exists msg. right. apply in_or_app. right. left. reflexivity.
      * intros [msg Hin]. apply Herr in Hin.
        cbn [filter is_err] in Hin. rewrite filter_app, Hnoerr in Hin.
        cbn [app] in Hin. apply filter_In in Hin. destruct Hin as [Hin _].
        destruct r as [[]|[e| |]]; cbn [conclusion fst] in Hin;
          try destruct Hin.
        cbn [conclusion]. destruct (handler cfg host e);
          [reflexivity | destruct Hin].
Qed.

(** ** The success line and the releases *)

Lemma reported_success_line (test input output : Z) (vs : list Z)
  (cls : Z) (k : nat) (v : Z) (ps : list (Z * Z)) (resets : Z) :
  In (EvOut success_line)
    (reported cfg test input output vs cls k v ps resets).
Proof.
  unfold reported. apply in_or_app. right. apply in_or_app. right.
  apply in_or_app. right. left. reflexivity.
Qed.

(** X2: when [afu.free] throws, [main] has already printed "DMA Test
    Successful!!!"; it does not return [EXIT_SUCCESS], and for an
    exception of a caught type it returns [EXIT_FAILURE]. *)
Theorem free_throws_after_success_line (fuel : nat) (w : W)
  (t : list event) (o : outcome) (w' : W) (p : Z) (e : exn) :
  main cfg host fuel w = (t, o, w') ->
  In (EvThrown (AfuFree p) e) t ->
  In (EvOut success_line) t
  /\ o <> Exit EXIT_SUCCESS
  /\ (e <> ExOther -> o = Exit EXIT_FAILURE).
Proof.
  intros H Hin. apply main_runs in H.
  destruct H as [[e0 [-> ->]] | [tb [r [Hrun [-> ->]]]]].
  - exfalso. which_throw Hin.
  - destruct Hrun; which_throw Hin; injection Hin as <- <-;
      (split;
       [ right; apply in_or_app; left; apply in_or_app; left;
         apply reported_success_line
       | split;
         [ apply conclusion_after_throw
         | intros Hne; destruct (conclusion_caught _ Hne) as [msg ->];
           reflexivity ] ]).
Qed.

(** ** Accesses to the buffers *)

Lemma fill_trace_in_bounds (i input output : Z) (vs : list Z) :
  0 <= i -> i + Z.of_nat (List.length vs) <= Z.of_N (DATA_AMOUNT cfg) ->
  Forall (access_in_bounds cfg input output)
    (fill_trace cfg i input output vs).
Proof.
  revert i. induction vs as [|v vs IH]; intros i Hi Hn; [constructor|].
  cbn [List.length] in Hn. cbn [fill_trace].
  do 3 (apply Forall_cons; [cbn [access_in_bounds]; try exact I; lia|]).
  apply IH; lia.
Qed.

Lemma verify_trace_in_bounds (i input output : Z) (ps : list (Z * Z)) :
  0 <= i -> i + Z.of_nat (List.length ps) <= Z.of_N (DATA_AMOUNT cfg) ->
  Forall (access_in_bounds cfg input output)
    (verify_trace i input output ps).
Proof.
  revert i. induction ps as [|[o x] ps IH]; intros i Hi Hn; [constructor|].
  cbn [List.length] in Hn. cbn [verify_trace].
  do 2 (apply Forall_cons; [cbn [access_in_bounds]; lia|]).
  apply IH; lia.
Qed.

Lemma waits_in_bounds (input output : Z) (k : nat) :
  Forall (access_in_bounds cfg input output) (waits cfg k).
Proof.
  induction k as [|k IH]; [constructor|]. cbn [waits].
  apply Forall_app. split; [|exact IH].
  unfold wait_step. destruct (SLEEP_WHILE_WAITING cfg);
    repeat constructor.
Qed.

Lemma conclusion_in_bounds (input output : Z) (r : res unit) :
  Forall (access_in_bounds cfg input output) (fst (conclusion cfg host r)).
Proof.
  destruct r as [[]|[e| |]]; cbn [conclusion fst]; try constructor.
  destruct (handler cfg host e); cbn [fst]; repeat constructor.
Qed.

Ltac in_bounds :=
  unfold reported, compared, programmed, allocated;
  repeat (apply Forall_app; split);
  try (apply fill_trace_in_bounds; lia);
  try (apply verify_trace_in_bounds; lia);
  try apply waits_in_bounds;
  try apply conclusion_in_bounds;
  repeat match goal with
         | |- context [if ?c then [EvOut ?s] else []] => destruct c
         end;
  repeat first [ apply Forall_nil | apply Forall_cons ];
  try exact I.

(** X4: every store and every load of [main] is to an element of one of
    the two buffers it allocated, at an index from 0 to DATA_AMOUNT - 1. *)
Theorem buffer_accesses_in_bounds (fuel : nat) (w : W) (t : list event)
  (o : outcome) (w' : W) :
  main cfg host fuel w = (t, o, w') ->
  exists input output,
    Forall (access_in_bounds cfg input output) t
    /\ (forall p i v,
           In (EvStore p i v) t \/ In (EvLoad p i v) t ->
           In (EvMalloc (DATA_AMOUNT cfg) p) t).
Proof.
  intros H. apply main_runs in H.
  assert (Hnone : forall l p i v,
             filter (fun e => is_load e || is_store e) l = [] ->
             ~ (In (EvStore p i v) l \/ In (EvLoad p i v) l)).
  { intros l p i v Hl [Hin | Hin];
      (assert (Hf : In (EvStore p i v) (filter (fun e => is_load e || is_store e) l)
                    \/ In (EvLoad p i v) (filter (fun e => is_load e || is_store e) l))
        by (first [ left; apply filter_In; split; [exact Hin | reflexivity]
                  | right; apply filter_In; split; [exact Hin | reflexivity] ]));
      rewrite Hl in Hf; destruct Hf as [[] | []]. }
  assert (Hfrom : forall input output l p i v,
             Forall (access_in_bounds cfg input output) l ->
             In (EvStore p i v) l \/ In (EvLoad p i v) l ->
             p = input \/ p = output).
  { intros input output l p i v Hall Hin. rewrite Forall_forall in Hall.
    destruct Hin as [Hin | Hin]; apply Hall in Hin; cbn in Hin; tauto. }
  destruct H as [[e [-> ->]] | [tb [r [Hrun [-> ->]]]]].
  - exists 0, 0. split.
    + constructor; [exact I | apply conclusion_in_bounds].
    + intros p i v Hin. exfalso. revert Hin. apply Hnone.
      cbn [filter is_load is_store orb].
      apply filter_conclusion. reflexivity.
  - destruct Hrun.
    1:{ exists 0, 0. split.
        - constructor; [exact I|]. in_bounds.
        - intros p i v Hin. exfalso. revert Hin. apply Hnone.
          cbn [filter is_load is_store orb app].
          apply filter_conclusion. reflexivity. }
    1:{ exists input, 0. split.
        - constructor; [exact I|]. in_bounds.
        - intros p i v Hin. exfalso. revert Hin. apply Hnone.
          cbn [filter is_load is_store orb app].
          apply filter_conclusion. reflexivity. }
    all: exists input, output;
      match goal with
      | |- Forall _ ?l /\ _ =>
          assert (Hall : Forall (access_in_bounds cfg input output) l)
            by (constructor; [exact I|]; in_bounds)
      end;
      (split; [exact Hall|]);
      intros p0 i0 v0 Hin;
      destruct (Hfrom _ _ _ _ _ _ Hall Hin) as [-> | ->];
      right; unfold reported, compared, programmed, allocated;
      list_norm; cbn [In]; auto.
Qed.

(** ** An empty transfer *)

Lemma num_cls_of_no_bytes (cls : Z) :
  total_bytes cfg = 0 -> num_cls cfg = Some cls -> cls = 0.
Proof.
  unfold num_cls. intros ->.
  change (float_of_unsigned 0) with (S754_zero false).
  destruct (float_of_unsigned (CL_BYTES cfg)) as [s | s | | s m e];
    cbn [float_div SFdiv float_ceil]; unfold float_div; cbn [SFdiv float_ceil];
    try discriminate;
    cbn [unsigned_of_integral Z.leb Z.ltb andb]; intros H;
    injection H as <-; reflexivity.
Qed.

(** X5: with [DATA_AMOUNT] = 0 a run that returns [EXIT_SUCCESS] calls
    neither [rand] nor touches a buffer: it allocates two empty buffers,
    writes their addresses, size 0 and go, polls, and always reports
    success; the FAILURE line cannot appear. *)
Theorem empty_transfer_is_still_started (fuel : nat) (w : W)
  (t : list event) (w' : W) :
  DATA_AMOUNT cfg = 0%N ->
  main cfg host fuel w = (t, Exit EXIT_SUCCESS, w') ->
  exists input output k v resets,
    t = [EvNew (AFU_ACCEL_UUID cfg);
         EvMalloc 0 input; EvMalloc 0 output;
         EvOut (hex_of_pointer input ++ endl);
         EvOut (hex_of_pointer output ++ endl);
         EvOut (test_line 0);
         EvWrite (MMIO_RD_ADDR cfg) input; EvWrite (MMIO_WR_ADDR cfg) output;
         EvWrite (MMIO_SIZE cfg) 0; EvWrite (MMIO_GO cfg) 1]
        ++ waits cfg k
        ++ [EvRead (MMIO_DONE cfg) v;
            EvOut "# of resets: "; EvRead RESETS_OFFSET resets;
            EvOut (to_hex resets ++ endl);
            EvOut success_line; EvFree input; EvFree output]
    /\ v <> 0.
Proof.
  intros Hn H. apply main_done in H.
  destruct H as [input [output [vs [cls [k [v [ps [resets
                  [-> [Hvs [Hcls [_ [Hv Hps]]]]]]]]]]]]].
  rewrite Hn in Hvs, Hps. cbn in Hvs, Hps.
  destruct vs; [|discriminate]. destruct ps; [|discriminate].
  assert (Hz : cls = 0).
  { apply num_cls_of_no_bytes; [|exact Hcls].
    unfold total_bytes. rewrite Hn. reflexivity. }
  subst cls. exists input, output, k, v, resets. split; [|exact Hv].
  unfold full_trace. rewrite Hn. cbn [fill_trace verify_trace tally app].
  cbn [Z.ltb Z.compare]. list_norm. reflexivity.
Qed.

(** ** No timeout *)

Lemma answered_bind {A B : Type} (m : M W A) (k : A -> M W B) :
  (forall w, Forall (answered host) (fst (fst (m w)))) ->
  (forall a w, Forall (answered host) (fst (fst (k a w)))) ->
  forall w, Forall (answered host) (fst (fst (bind m k w))).
Proof.
  intros Hm Hk w. unfold bind. specialize (Hm w).
  destruct (m w) as [[t1 [a|h]] w1]; [|exact Hm].
  specialize (Hk a w1). destruct (k a w1) as [[t2 r2] w2].
  cbn [fst] in *. apply Forall_app. auto.
Qed.

Ltac answered_step :=
  lazymatch goal with
  | |- Forall _ (fst (fst (bind _ _ ?w))) =>
      revert w; apply answered_bind; [intros w | intros ? w]
  end.

Lemma answered_call {A : Type} (c : afu_call) (ev : A -> event)
  (op : W -> (exn + A) * W) :
  (forall a w w1, op w = (inr a, w1) -> answered host (ev a)) ->
  forall w, Forall (answered host) (fst (fst (call c ev op w))).
Proof.
  intros Hev w. unfold call. destruct (op w) as [[e|a] w1] eqn:Hop;
    cbn [fst]; repeat constructor. exact (Hev a w w1 Hop).
Qed.

Lemma answered_fill (n : nat) (i input output : Z) (w : W) :
  Forall (answered host)
    (fst (fst (fill_loop cfg host n i input output w))).
Proof.
  destruct (fill_loop_run cfg host n i input output w)
    as [vs [w1 [-> _]]].
  cbn [fst]. clear. revert i. induction vs as [|v vs IH]; intros i;
    [constructor|]. cbn [fill_trace]. repeat constructor. apply IH.
Qed.

Lemma answered_verify (n : nat) (i input output errors : Z) (w : W) :
  Forall (answered host)
    (fst (fst (verify_loop host n i input output errors w))).
Proof.
  destruct (verify_loop_run host n i input output errors w)
    as [ps [w1 [-> _]]].
  cbn [fst]. clear. revert i. induction ps as [|[o x] ps IH]; intros i;
    [constructor|]. cbn [verify_trace]. repeat constructor. apply IH.
Qed.

Lemma answered_poll (fuel : nat) (w : W) :
  Forall (answered host) (fst (fst (poll cfg host fuel w))).
Proof.
  revert w. induction fuel as [|fuel IH]; intros w; [constructor|].
  cbn [poll]. answered_step.
  - apply answered_call. intros v w0 w1 Hop. exists w0, w1. exact Hop.
  - destruct (_ =? 0); [|constructor]. answered_step; [|apply IH].
    destruct (SLEEP_WHILE_WAITING cfg); repeat constructor.
Qed.

Lemma answered_test_body (fuel : nat) (test : Z) (w : W) :
  Forall (answered host) (fst (fst (test_body cfg host fuel test w))).
Proof.
  unfold test_body, malloc, write, read, free.
  repeat answered_step;
    try (apply answered_call; intros; exact I);
    try apply answered_fill; try apply answered_poll;
    try apply answered_verify;
    try (repeat constructor; fail).
  - destruct (num_cls cfg); constructor.
  - apply answered_call. intros v w0 w1 Hop. exists w0, w1. exact Hop.
  - destruct (0 <? _); repeat constructor.
Qed.

(** X6: [main] has no timeout.  On a platform whose completion register
    always reads 0, no run of [main] returns [EXIT_SUCCESS], loads an
    element or frees a buffer, whatever the number of polls; a run in
    which nothing throws and [num_cls] is defined has polled as often as
    its budget allowed and is still polling. *)
Theorem no_timeout_when_never_done (fuel : nat) (w : W) (t : list event)
  (o : outcome) (w' : W) :
  (forall w0, exists w1, afu_read host (MMIO_DONE cfg) w0 = (inr 0, w1)) ->
  main cfg host fuel w = (t, o, w') ->
  o <> Exit EXIT_SUCCESS
  /\ filter is_load t = []
  /\ filter is_free t = []
  /\ (no_throw t = true -> o <> UndefinedBehaviour ->
      o = StillPolling /\ exists pre, t = pre ++ waits cfg fuel).
Proof.
  intros Hstuck H. pose proof H as Hinv. apply main_inv in Hinv.
  assert (Hzero : forall tb v,
             Forall (answered host) tb ->
             In (EvRead (MMIO_DONE cfg) v) tb -> v = 0).
  { intros tb v Hall Hin. rewrite Forall_forall in Hall.
    apply Hall in Hin. destruct Hin as [w0 [w1 Hr]].
    destruct (Hstuck w0) as [w2 Hr0]. congruence. }
  destruct Hinv as [[e [-> ->]] | [w1 [tb [r [Hb [-> ->]]]]]].
  - split; [apply conclusion_after_throw|].
    split; [cbn [filter is_load]; apply filter_conclusion; reflexivity|].
    split; [cbn [filter is_free]; apply filter_conclusion; reflexivity|].
    intros Hnt. discriminate.
  - pose proof (answered_test_body fuel 0 w1) as Hans.
    rewrite Hb in Hans. cbn [fst] in Hans.
    apply test_body_runs in Hb.
    assert (Hdone : forall input output vs cls k v ps,
               ~ (v <> 0
                  /\ exists rest,
                       tb = compared cfg 0 input output vs cls k v ps
                              ++ rest)).
    { intros input output vs cls k v ps [Hv [rest Htb]]. apply Hv.
      apply (Hzero tb v Hans). rewrite Htb. apply in_or_app. left.
      unfold compared. apply in_or_app. right. apply in_or_app. left.
      apply in_or_app. right. left. reflexivity. }
    destruct Hb;
      try (exfalso;
           match goal with
           | Hv : ?v <> 0 |- _ =>
               eapply (Hdone _ _ _ _ _ v); split; [exact Hv|];
               eexists; unfold reported; list_norm;
               rewrite <- ?app_assoc; reflexivity
           end);
      (split; [first [ apply conclusion_after_throw | discriminate ]|]);
      (split; [cbn [filter is_load]; filter_trace; reflexivity|]);
      (split; [cbn [filter is_free]; filter_trace; reflexivity|]);
      intros Hnt Hub;
      try (exfalso; apply Hub; reflexivity);
      try (exfalso; revert Hnt; unfold no_throw;
           unfold reported, compared, programmed, allocated;
           cbn [forallb]; rewrite ?forallb_app; cbn [forallb is_thrown negb];
           rewrite ?andb_false_r; cbn [andb];
           rewrite ?andb_false_r; discriminate).
    split; [reflexivity|].
    eexists. cbn [conclusion fst]. rewrite app_nil_r.
    rewrite app_comm_cons. reflexivity.
Qed.

End MoreRuns.

(** ** Termination *)

Section Liveness.

Context {W : Type}.
Variable cfg : config.
Variable host : Host W.

Lemma finishes_bind {A B : Type} (m : M W A) (k : A -> M W B) :
  finishes m -> (forall a, finishes (k a)) -> finishes (bind m k).
Proof.
  intros Hm Hk w. destruct (Hm w) as [t1 [a [w1 Hrun]]].
  destruct (Hk a w1) as [t2 [b [w2 Hrest]]].
  exists (t1 ++ t2), b, w2. unfold bind. rewrite Hrun, Hrest. reflexivity.
Qed.

Lemma finishes_call {A : Type} (c : afu_call) (ev : A -> event)
  (op : W -> (exn + A) * W) :
  (forall w, exists a w1, op w = (inr a, w1)) -> finishes (call c ev op).
Proof.
  intros Hop w. destruct (Hop w) as [a [w1 Heq]].
  exists [ev a], a, w1. unfold call. rewrite Heq. reflexivity.
Qed.

Lemma finishes_call_unit (c : afu_call) (ev : unit -> event)
  (op : W -> (exn + unit) * W) :
  (forall w, exists w1, op w = (inr tt, w1)) -> finishes (call c ev op).
Proof.
  intros Hop. apply finishes_call. intros w.
  destruct (Hop w) as [w1 Heq]. exists tt, w1. exact Heq.
Qed.

Lemma finishes_cout (s : string) : finishes (cout (W := W) s).
Proof. intros w. exists [EvOut s], tt, w. reflexivity. Qed.

Lemma finishes_fill (n : nat) (i input output : Z) :
  finishes (fill_loop cfg host n i input output).
Proof.
  intros w. destruct (fill_loop_run cfg host n i input output w)
    as [vs [w1 [Hrun _]]]. eauto.
Qed.

Lemma finishes_verify (n : nat) (i input output errors : Z) :
  finishes (verify_loop host n i input output errors).
Proof.
  intros w. destruct (verify_loop_run host n i input output errors w)
    as [ps [w1 [Hrun _]]]. eauto.
Qed.

(** The polling loop ends at the first non-zero read, if its budget
    reaches that far. *)
Lemma poll_ends (k fuel : nat) (w : W) :
  (k < fuel)%nat -> done_after cfg host k w ->
  exists v w',
    v <> 0
    /\ poll cfg host fuel w
       = (waits cfg k ++ [EvRead (MMIO_DONE cfg) v], Done tt, w').
Proof.
  revert fuel w. induction k as [|k IH]; intros fuel w Hlt Hdone;
    (destruct fuel as [|fuel]; [lia|]); cbn [poll done_after] in *.
  - destruct Hdone as [v [w1 [Hr Hv]]]. exists v, w1. split; [exact Hv|].
    unfold bind, read, call. rewrite Hr.
    apply Z.eqb_neq in Hv. rewrite Hv. reflexivity.
  - destruct Hdone as [w1 [Hr Hdone]].
    destruct (IH fuel _ ltac:(lia) Hdone) as [v [w' [Hv Hp]]].
    exists v, w'. split; [exact Hv|].
    unfold bind at 1, read, call. rewrite Hr. cbn [Z.eqb waits].
    unfold wait_step. destruct (SLEEP_WHILE_WAITING cfg).
    + unfold bind at 1, sleep. rewrite Hp. reflexivity.
    + unfold bind at 1, ret. rewrite Hp. reflexivity.
Qed.

(** X9: when the completion register reads 0 for [k] polls and then a
    non-zero value, the polling loop makes exactly those [k] waits and
    ends at that read; the read value, the trace and the world it leaves
    are the same for every budget above [k]. *)
Theorem polling_stops_at_first_nonzero_read (k : nat) (w : W) :
  done_after cfg host k w ->
  exists v w',
    v <> 0
    /\ forall fuel,
         (k < fuel)%nat ->
         poll cfg host fuel w
         = (waits cfg k ++ [EvRead (MMIO_DONE cfg) v], Done tt, w').
Proof.
  intros Hdone.
  destruct (poll_ends k (S k) w (Nat.lt_succ_diag_r k) Hdone)
    as [v [w' [Hv Hp]]].
  exists v, w'. split; [exact Hv|]. intros fuel Hlt.
  apply (poll_fuel_mono cfg host (S k) fuel); [exact Hp | discriminate | lia].
Qed.

Ltac finishes_step :=
  lazymatch goal with
  | |- finishes (bind _ _) => apply finishes_bind; [ | intros ? ]
  end.

(** X10: on a platform whose wrapper never throws and whose completion
    register reads non-zero within the budget of polls from any state,
    and with [num_cls] defined, [main] returns [EXIT_SUCCESS]. *)
Theorem main_returns_on_cooperative_platform (fuel : nat) :
  cooperative host ->
  num_cls cfg <> None ->
  (forall w, exists k, (k < fuel)%nat /\ done_after cfg host k w) ->
  forall w, exists t w',
    main cfg host fuel w = (t, Exit EXIT_SUCCESS, w').
Proof.
  intros [Hnew Hmalloc Hwrite Hread Hfree] Hcls Hdone w.
  assert (Hbody : finishes (test_body cfg host fuel 0)).
  { unfold test_body, malloc, write, read, free.
    repeat finishes_step;
      try apply finishes_cout;
      try apply finishes_fill; try apply finishes_verify;
      try (apply finishes_call_unit; auto; fail);
      try (apply finishes_call; auto; fail).
    - destruct (num_cls cfg) as [cls|]; [|congruence].
      intros w0. exists [], cls, w0. reflexivity.
    - intros w0. destruct (Hdone w0) as [k [Hk Hd]].
      destruct (poll_ends k fuel w0 Hk Hd) as [v [w1 [_ Hp]]]. eauto.
    - destruct (0 <? _); [apply finishes_cout|].
      intros w0. exists [], tt, w0. reflexivity. }
  unfold main, try_block, new_afu.
  destruct (Hnew (AFU_ACCEL_UUID cfg) w) as [w1 Hn].
  destruct (Hbody w1) as [tb [[] [w2 Hb]]].
  exists (EvNew (AFU_ACCEL_UUID cfg) :: tb ++ []) , w2.
  unfold bind at 1, call. rewrite Hn. cbn [test_loop NUM_TESTS].
  unfold bind at 1. rewrite Hb. cbn [ret conclusion fst snd app].
  rewrite !app_nil_r. reflexivity.
Qed.

End Liveness.

(** ** The further properties at work *)

(** The register accesses of the run with the engine that copies. *)
Lemma register_accesses_witness :
  main Sim.cfg4 (Sim.host Sim.cfg4 Sim.good) 5 Sim.init
  = (fst (fst good_run), snd (fst good_run), snd good_run)
  /\ (forall off, Exists (accessed off) (fst (fst good_run)) ->
                  In off (named_offsets Sim.cfg4) \/ off = RESETS_OFFSET)
  /\ (forall pre e post,
         fst (fst good_run) = pre ++ e :: post -> is_mmio e = true ->
         exists input output mid,
           pre = EvNew (AFU_ACCEL_UUID Sim.cfg4)
                   :: EvMalloc (DATA_AMOUNT Sim.cfg4) input
                   :: EvMalloc (DATA_AMOUNT Sim.cfg4) output :: mid
           /\ filter is_malloc (mid ++ post) = []
           /\ mmio_allowed Sim.cfg4 input output e
           /\ (forall off, read_at e = Some off ->
                 (off = MMIO_DONE Sim.cfg4
                  /\ filter is_load pre = []
                  /\ exists cls,
                       num_cls Sim.cfg4 = Some cls
                       /\ filter is_write pre
                          = [EvWrite (MMIO_RD_ADDR Sim.cfg4) input;
                             EvWrite (MMIO_WR_ADDR Sim.cfg4) output;
                             EvWrite (MMIO_SIZE Sim.cfg4) cls;
                             EvWrite (MMIO_GO Sim.cfg4) 1])
                 \/ (off = RESETS_OFFSET
                     /\ (exists v,
                            v <> 0 /\ In (EvRead (MMIO_DONE Sim.cfg4) v) pre)
                     /\ List.length (filter is_load pre)
                        = (2 * N.to_nat (DATA_AMOUNT Sim.cfg4))%nat
                     /\ filter is_load post = []
                     /\ filter is_mmio post = [])))
  /\ (snd (fst good_run) = Exit EXIT_SUCCESS ->
      exists input output cls k v resets,
        num_cls Sim.cfg4 = Some cls /\ v <> 0
        /\ filter is_malloc (fst (fst good_run))
           = [EvMalloc (DATA_AMOUNT Sim.cfg4) input;
              EvMalloc (DATA_AMOUNT Sim.cfg4) output]
        /\ filter is_mmio (fst (fst good_run))
           = [EvWrite (MMIO_RD_ADDR Sim.cfg4) input;
              EvWrite (MMIO_WR_ADDR Sim.cfg4) output;
              EvWrite (MMIO_SIZE Sim.cfg4) cls;
              EvWrite (MMIO_GO Sim.cfg4) 1]
             ++ repeat (EvRead (MMIO_DONE Sim.cfg4) 0) k
             ++ [EvRead (MMIO_DONE Sim.cfg4) v;
                 EvRead RESETS_OFFSET resets]).
Proof.
  assert (Hrun : main Sim.cfg4 (Sim.host Sim.cfg4 Sim.good) 5 Sim.init
                 = (fst (fst good_run), snd (fst good_run), snd good_run))
    by (vm_compute; reflexivity).
  split; [exact Hrun|].
  exact (register_accesses Sim.cfg4 _ 5 Sim.init _ _ _ Hrun).
Defined.

(** The run whose write of the write address throws: no call of
    [afu.free] has returned. *)
Lemma at_most_one_free_on_failure_witness :
  (main Sim.cfg4
     (Sim.host Sim.cfg4 (Sim.failing 4 (ExFpgaResult FPGA_BUSY))) 5 Sim.init
   = (fst (fst busy_run), snd (fst busy_run), snd busy_run)
   /\ snd (fst busy_run) <> Exit EXIT_SUCCESS)
  /\ (List.length (filter is_free (fst (fst busy_run))) <= 1)%nat
  /\ ((snd (fst busy_run) = StillPolling
       \/ exists c e,
            register_call c = true /\ In (EvThrown c e) (fst (fst busy_run)))
      -> exists input output,
           filter is_malloc (fst (fst busy_run))
           = [EvMalloc (DATA_AMOUNT Sim.cfg4) input;
              EvMalloc (DATA_AMOUNT Sim.cfg4) output]
           /\ filter is_free (fst (fst busy_run)) = []).
Proof.
  assert (Hrun : main Sim.cfg4
                   (Sim.host Sim.cfg4 (Sim.failing 4 (ExFpgaResult FPGA_BUSY)))
                   5 Sim.init
                 = (fst (fst busy_run), snd (fst busy_run), snd busy_run))
    by (vm_compute; reflexivity).
  assert (Ho : snd (fst busy_run) <> Exit EXIT_SUCCESS)
    by (vm_compute; discriminate).
  split; [auto|].
  exact (at_most_one_free_on_failure Sim.cfg4 _ 5 Sim.init _ _ _ Hrun Ho).
Defined.

(** The run whose first [afu.free] throws [no_driver]. *)
Lemma free_throws_after_success_line_witness :
  (main Sim.cfg4 (Sim.host Sim.cfg4 (Sim.failing 11 ExNoDriver)) 5 Sim.init
   = (fst (fst free_run), snd (fst free_run), snd free_run)
   /\ In (EvThrown (AfuFree 65536) ExNoDriver) (fst (fst free_run)))
  /\ In (EvOut success_line) (fst (fst free_run))
  /\ snd (fst free_run) <> Exit EXIT_SUCCESS
  /\ (ExNoDriver <> ExOther -> snd (fst free_run) = Exit EXIT_FAILURE).
Proof.
  assert (Hrun : main Sim.cfg4
                   (Sim.host Sim.cfg4 (Sim.failing 11 ExNoDriver)) 5 Sim.init
                 = (fst (fst free_run), snd (fst free_run), snd free_run))
    by (vm_compute; reflexivity).
  assert (Hin : In (EvThrown (AfuFree 65536) ExNoDriver) (fst (fst free_run))).
  { refine (proj1 (proj1 (filter_In is_thrown
                             (EvThrown (AfuFree 65536) ExNoDriver)
                             (fst (fst free_run))) _)).
    vm_compute. left. reflexivity. }
  split; [split; [exact Hrun | exact Hin]|].
  exact (free_throws_after_success_line Sim.cfg4 _ 5 Sim.init _ _ _ _ _
           Hrun Hin).
Defined.

(** The exit code of the run whose write throws [FPGA_BUSY]. *)
Lemma exit_failure_iff_caught_exception_witness :
  main Sim.cfg4
    (Sim.host Sim.cfg4 (Sim.failing 4 (ExFpgaResult FPGA_BUSY))) 5 Sim.init
  = (fst (fst busy_run), snd (fst busy_run), snd busy_run)
  /\ (snd (fst busy_run) = Exit EXIT_FAILURE <->
      exists c e, In (EvThrown c e) (fst (fst busy_run)) /\ e <> ExOther)
  /\ (snd (fst busy_run) = Exit EXIT_FAILURE <->
      exists msg, In (EvErr msg) (fst (fst busy_run)))
  /\ (forall code, snd (fst busy_run) = Exit code ->
                   code = EXIT_SUCCESS \/ code = EXIT_FAILURE).
Proof.
  assert (Hrun : main Sim.cfg4
                   (Sim.host Sim.cfg4 (Sim.failing 4 (ExFpgaResult FPGA_BUSY)))
                   5 Sim.init
                 = (fst (fst busy_run), snd (fst busy_run), snd busy_run))
    by (vm_compute; reflexivity).
  split; [exact Hrun|].
  exact (exit_failure_iff_caught_exception Sim.cfg4 _ 5 Sim.init _ _ _ Hrun).
Defined.

(** The stores and loads of the run with the engine that copies. *)
Lemma buffer_accesses_in_bounds_witness :
  main Sim.cfg4 (Sim.host Sim.cfg4 Sim.good) 5 Sim.init
  = (fst (fst good_run), snd (fst good_run), snd good_run)
  /\ exists input output,
       Forall (access_in_bounds Sim.cfg4 input output) (fst (fst good_run))
       /\ (forall p i v,
              In (EvStore p i v) (fst (fst good_run))
              \/ In (EvLoad p i v) (fst (fst good_run)) ->
              In (EvMalloc (DATA_AMOUNT Sim.cfg4) p) (fst (fst good_run))).
Proof.
  assert (Hrun : main Sim.cfg4 (Sim.host Sim.cfg4 Sim.good) 5 Sim.init
                 = (fst (fst good_run), snd (fst good_run), snd good_run))
    by (vm_compute; reflexivity).
  split; [exact Hrun|].
  exact (buffer_accesses_in_bounds Sim.cfg4 _ 5 Sim.init _ _ _ Hrun).
Defined.

(** The run with no element. *)
Lemma empty_transfer_is_still_started_witness :
  (DATA_AMOUNT cfg_empty = 0%N
   /\ main cfg_empty (Sim.host cfg_empty Sim.good) 5 Sim.init
      = (fst (fst empty_run), Exit EXIT_SUCCESS, snd empty_run))
  /\ exists input output k v resets,
       fst (fst empty_run)
       = [EvNew (AFU_ACCEL_UUID cfg_empty);
          EvMalloc 0 input; EvMalloc 0 output;
          EvOut (hex_of_pointer input ++ endl);
          EvOut (hex_of_pointer output ++ endl);
          EvOut (test_line 0);
          EvWrite (MMIO_RD_ADDR cfg_empty) input;
          EvWrite (MMIO_WR_ADDR cfg_empty) output;
          EvWrite (MMIO_SIZE cfg_empty) 0; EvWrite (MMIO_GO cfg_empty) 1]
         ++ waits cfg_empty k
         ++ [EvRead (MMIO_DONE cfg_empty) v;
             EvOut "# of resets: "; EvRead RESETS_OFFSET resets;
             EvOut (to_hex resets ++ endl);
             EvOut success_line; EvFree input; EvFree output]
       /\ v <> 0.
Proof.
  assert (Hn : DATA_AMOUNT cfg_empty = 0%N) by reflexivity.
  assert (Hrun : main cfg_empty (Sim.host cfg_empty Sim.good) 5 Sim.init
                 = (fst (fst empty_run), Exit EXIT_SUCCESS, snd empty_run))
    by (vm_compute; reflexivity).
  split; [auto|].
  exact (empty_transfer_is_still_started cfg_empty _ 5 Sim.init _ _ Hn Hrun).
Defined.

(** The run on the platform whose registers always read 0. *)
Lemma no_timeout_when_never_done_witness :
  ((forall w0, exists w1,
       afu_read (plain_host 0) (MMIO_DONE Sim.cfg4) w0 = (inr 0, w1))
   /\ main Sim.cfg4 (plain_host 0) 5 Sim.init
      = (fst (fst stuck_run), snd (fst stuck_run), snd stuck_run))
  /\ snd (fst stuck_run) <> Exit EXIT_SUCCESS
  /\ filter is_load (fst (fst stuck_run)) = []
  /\ filter is_free (fst (fst stuck_run)) = []
  /\ (no_throw (fst (fst stuck_run)) = true ->
      snd (fst stuck_run) <> UndefinedBehaviour ->
      snd (fst stuck_run) = StillPolling
      /\ exists pre, fst (fst stuck_run) = pre ++ waits Sim.cfg4 5).
Proof.
  assert (Hstuck : forall w0, exists w1,
             afu_read (plain_host 0) (MMIO_DONE Sim.cfg4) w0 = (inr 0, w1))
    by (intros w0; exists w0; reflexivity).
  assert (Hrun : main Sim.cfg4 (plain_host 0) 5 Sim.init
                 = (fst (fst stuck_run), snd (fst stuck_run), snd stuck_run))
    by (vm_compute; reflexivity).
  split; [auto|].
  exact (no_timeout_when_never_done Sim.cfg4 _ 5 Sim.init _ _ _ Hstuck Hrun).
Defined.

(** Thirty-two bytes in cache lines of 2^6 bytes: one line. *)
Lemma num_cls_exact_below_16MiB_witness :
  (0 <= 6 <= 23
   /\ CL_BYTES Sim.cfg4 = 2 ^ 6
   /\ 0 <= Z.of_N (DATA_AMOUNT Sim.cfg4) * dma_bytes Sim.cfg4 < 2 ^ 24)
  /\ num_cls Sim.cfg4
     = Some (ceil_div (Z.of_N (DATA_AMOUNT Sim.cfg4) * dma_bytes Sim.cfg4)
               (2 ^ 6)).
Proof.
  assert (Hj : 0 <= 6 <= 23) by lia.
  assert (Hcl : CL_BYTES Sim.cfg4 = 2 ^ 6) by reflexivity.
  assert (Ha : 0 <= Z.of_N (DATA_AMOUNT Sim.cfg4) * dma_bytes Sim.cfg4
               < 2 ^ 24)
    by (vm_compute; split; [discriminate | reflexivity]).
  split; [auto|].
  exact (num_cls_exact_below_16MiB Sim.cfg4 6 Hj Hcl Ha).
Defined.

(** Thirty-two bytes in cache lines of no bytes. *)
Lemma num_cls_undefined_without_cache_line_witness :
  (CL_BYTES cfg_no_line = 0
   /\ 0 <= Z.of_N (DATA_AMOUNT cfg_no_line) * dma_bytes cfg_no_line < 2 ^ 24)
  /\ num_cls cfg_no_line = None.
Proof.
  assert (Hcl : CL_BYTES cfg_no_line = 0) by reflexivity.
  assert (Ha : 0 <= Z.of_N (DATA_AMOUNT cfg_no_line) * dma_bytes cfg_no_line
               < 2 ^ 24)
    by (vm_compute; split; [discriminate | reflexivity]).
  split; [auto|].
  exact (num_cls_undefined_without_cache_line cfg_no_line Hcl Ha).
Defined.

(** The simulated engine two polls away from completion. *)
Lemma polling_stops_at_first_nonzero_read_witness :
  done_after Sim.cfg4 (Sim.host Sim.cfg4 Sim.good) 2 busy_world
  /\ exists v w',
       v <> 0
       /\ forall fuel,
            (2 < fuel)%nat ->
            poll Sim.cfg4 (Sim.host Sim.cfg4 Sim.good) fuel busy_world
            = (waits Sim.cfg4 2 ++ [EvRead (MMIO_DONE Sim.cfg4) v],
               Done tt, w').
Proof.
  assert (Hdone : done_after Sim.cfg4 (Sim.host Sim.cfg4 Sim.good) 2
                    busy_world).
  { cbn [done_after]. eexists. split; [vm_compute; reflexivity|].
    eexists. split; [vm_compute; reflexivity|].
    exists 1. eexists. split; [vm_compute; reflexivity | discriminate]. }
  split; [exact Hdone|].
  exact (polling_stops_at_first_nonzero_read Sim.cfg4 _ 2 busy_world Hdone).
Defined.

(** The platform whose registers always read 1, with a budget of one
    poll. *)
Lemma main_returns_on_cooperative_platform_witness :
  (cooperative (plain_host 1)
   /\ num_cls Sim.cfg4 <> None
   /\ (forall w, exists k,
          (k < 1)%nat /\ done_after Sim.cfg4 (plain_host 1) k w))
  /\ forall w, exists t w',
       main Sim.cfg4 (plain_host 1) 1 w = (t, Exit EXIT_SUCCESS, w').
Proof.
  assert (Hcoop : cooperative (plain_host 1)).
  { constructor; intros; cbn; eauto. }
  assert (Hcls : num_cls Sim.cfg4 <> None) by (vm_compute; discriminate).
  assert (Hdone : forall w, exists k,
             (k < 1)%nat /\ done_after Sim.cfg4 (plain_host 1) k w).
  { intros w. exists O. split; [lia|]. exists 1, w.
    split; [reflexivity | discriminate]. }
  split; [auto|].
  exact (main_returns_on_cooperative_platform Sim.cfg4 (plain_host 1) 1
           Hcoop Hcls Hdone).
Defined.
